(** * scripts/diagnose_rag_pipelines.py: the RAG pipeline diagnostic script

    A shallow embedding of the diagnostic script.  Standard output and the
    one search request are an explicit trace of events; the collaborators of
    the script (process environment, imports, service factories, pipeline
    registry, file system, search tool) are the fields of a [World] record;
    a Python exception is the [Raise] outcome of a small writer/error
    monad, and [try]/[except] is [try_except]. *)

From Stdlib Require Import String Ascii NArith Lia.
From stdpp Require Import base option list gmap pretty.

Local Open Scope list_scope.

(** ** Python strings

    A Python [str] is a sequence of Unicode code points; [len], slicing and
    [in] work on code points.  String literals of the source are written as
    Rocq strings (their UTF-8 bytes) and decoded by [lit]. *)

Definition pychar := N.
Definition pystr := list pychar.

Definition cont (b : N) : N := N.land b 63.

Fixpoint utf8_decode (bs : list N) : pystr :=
  match bs with
  | [] => []
  | b :: t =>
      if (b <? 128)%N then b :: utf8_decode t
      else if (b <? 224)%N then
        match t with
        | b1 :: t1 => (N.shiftl (N.land b 31) 6 + cont b1)%N :: utf8_decode t1
        | _ => []
        end
      else if (b <? 240)%N then
        match t with
        | b1 :: b2 :: t2 =>
            (N.shiftl (N.land b 15) 12 + N.shiftl (cont b1) 6 + cont b2)%N
              :: utf8_decode t2
        | _ => []
        end
      else
        match t with
        | b1 :: b2 :: b3 :: t3 =>
            (N.shiftl (N.land b 7) 18 + N.shiftl (cont b1) 12
             + N.shiftl (cont b2) 6 + cont b3)%N :: utf8_decode t3
        | _ => []
        end
  end.

Definition lit (s : string) : pystr :=
  utf8_decode (map N_of_ascii (list_ascii_of_string s)).

(** [str(n)] for a non-negative integer. *)
Definition str_of_nat (n : nat) : pystr := lit (pretty n).

(** [s.startswith(p)] *)
Fixpoint startswith (s p : pystr) : bool :=
  match p, s with
  | [], _ => true
  | _ :: _, [] => false
  | c :: p', d :: s' => (c =? d)%N && startswith s' p'
  end.

(** [needle in hay] *)
Fixpoint contains (needle hay : pystr) : bool :=
  startswith hay needle ||
  match hay with
  | [] => false
  | _ :: hay' => contains needle hay'
  end.

(** [value[:n]] and [value[-n:]] for [n > 0]. *)
Definition slice_to (n : nat) (s : pystr) : pystr := take n s.
Definition slice_last (n : nat) (s : pystr) : pystr := drop (length s - n) s.

(** [sep.join(parts)] *)
Fixpoint join (sep : pystr) (parts : list pystr) : pystr :=
  match parts with
  | [] => []
  | [p] => p
  | p :: rest => p ++ sep ++ join sep rest
  end.

(** [a == b] on strings *)
Fixpoint pystr_eqb (a b : pystr) : bool :=
  match a, b with
  | [], [] => true
  | c :: a', d :: b' => (c =? d)%N && pystr_eqb a' b'
  | _, _ => false
  end.

(** ** Exceptions and the effect monad *)

(** [ImportError] (with its subclasses) is told apart from every other
    subclass of [Exception], because two handlers catch only the former. *)
Inductive exc_class := ImportError | OtherException.

Record exn := { exn_class : exc_class; exn_msg : pystr }.

Inductive result (A : Type) :=
| Ok (a : A)
| Raise (e : exn).
Arguments Ok {A} a.
Arguments Raise {A} e.

(** What the script does that can be observed: calls of its five printing
    helpers, bare [print] calls, and the search request it sends. *)
Inductive event :=
| Header (text : pystr)
| Success (text : pystr)
| Warning (text : pystr)
| Error (text : pystr)
| Info (text : pystr)
| Print (text : pystr)
| RagSearch (query kb_name mode provider : pystr).

Definition M (A : Type) : Type := list event * result A.

Definition ret {A} (a : A) : M A := ([], Ok a).
Definition raise {A} (e : exn) : M A := ([], Raise e).
Definition emit (ev : event) : M unit := ([ev], Ok tt).
Definition lift {A} (r : result A) : M A := ([], r).

Definition bind {A B} (m : M A) (f : A -> M B) : M B :=
  match m with
  | (t, Ok a) => let '(t', r) := f a in (t ++ t', r)
  | (t, Raise e) => (t, Raise e)
  end.

Notation "x <- m ;; k" := (bind m (fun x => k))
  (at level 100, m at next level, right associativity).
Notation "m ;;; k" := (bind m (fun _ => k))
  (at level 100, right associativity).

(** [try: body except <classes> as e: handler e] *)
Definition try_except {A} (catches : exc_class -> bool)
    (body : M A) (handler : exn -> M A) : M A :=
  match body with
  | (t, Raise e) =>
      if catches (exn_class e)
      then let '(t', r) := handler e in (t ++ t', r)
      else (t, Raise e)
  | ok => ok
  end.

Definition except_ImportError (c : exc_class) : bool :=
  match c with ImportError => true | OtherException => false end.
Definition except_Exception (c : exc_class) : bool := true.

(** ** Printing helpers *)

(** The escapes [\033] and [\n] of the source's literals. *)
Definition ESC : pystr := [27%N].
Definition NL : pystr := [10%N].

Module Colors.
Definition GREEN : pystr := ESC ++ lit "[92m".
Definition YELLOW : pystr := ESC ++ lit "[93m".
Definition RED : pystr := ESC ++ lit "[91m".
Definition BLUE : pystr := ESC ++ lit "[94m".
Definition BOLD : pystr := ESC ++ lit "[1m".
Definition END : pystr := ESC ++ lit "[0m".
End Colors.

Definition print_header (text : pystr) : M unit := emit (Header text).
Definition print_success (text : pystr) : M unit := emit (Success text).
Definition print_warning (text : pystr) : M unit := emit (Warning text).
Definition print_error (text : pystr) : M unit := emit (Error text).
Definition print_info (text : pystr) : M unit := emit (Info text).
Definition print (text : pystr) : M unit := emit (Print text).

(** The text each event puts on standard output, following the bodies of the
    helpers; [print] ends every line with a newline, and a search request
    prints nothing. *)
Definition rule : pystr := List.repeat 61%N 60.

Definition render (ev : event) : pystr :=
  match ev with
  | Header text =>
      NL ++ Colors.BOLD ++ Colors.BLUE ++ rule ++ NL
      ++ lit "  " ++ text ++ NL
      ++ rule ++ Colors.END ++ NL ++ NL
  | Success text =>
      lit "  " ++ Colors.GREEN ++ lit "✓" ++ Colors.END ++ lit " " ++ text ++ NL
  | Warning text =>
      lit "  " ++ Colors.YELLOW ++ lit "⚠" ++ Colors.END ++ lit " " ++ text
      ++ NL
  | Error text =>
      lit "  " ++ Colors.RED ++ lit "✗" ++ Colors.END ++ lit " " ++ text ++ NL
  | Info text =>
      lit "  " ++ Colors.BLUE ++ lit "ℹ" ++ Colors.END ++ lit " " ++ text ++ NL
  | Print text => text ++ NL
  | RagSearch _ _ _ _ => []
  end.

Definition stdout (tr : list event) : pystr := concat (map render tr).

(** ** check_environment *)

Definition env_vars : list (pystr * option pystr) :=
  [ (lit "RAG_PROVIDER", Some (lit "raganything"));
    (lit "OPENAI_API_KEY", None);
    (lit "OPENAI_BASE_URL", None);
    (lit "LLM_MODEL", None);
    (lit "EMBEDDING_MODEL", None) ].

(** [os.getenv(var, default)] *)
Definition getenv (environ : gmap pystr pystr) (var : pystr)
    (default : option pystr) : option pystr :=
  match environ !! var with
  | Some v => Some v
  | None => default
  end.

(** Truth value of an optional string: [None] and [""] are false. *)
Definition truthy_str (v : option pystr) : bool :=
  match v with
  | Some (_ :: _) => true
  | _ => false
  end.

(** [value[:8] + "..." + value[-4:] if len(value) > 12 else "***"] *)
Definition mask (value : pystr) : pystr :=
  if 12 <? length value
  then slice_to 8 value ++ lit "..." ++ slice_last 4 value
  else lit "***".

(** The body of the loop of [check_environment] for one [(var, default)]. *)
Definition check_env_var (environ : gmap pystr pystr)
    (vd : pystr * option pystr) : M unit :=
  let '(var, default) := vd in
  let value := getenv environ var default in
  match value with
  | Some (c :: s) =>
      let value := c :: s in
      if contains (lit "KEY") var && truthy_str (Some value)
      then print_success (var ++ lit ": " ++ mask value)
      else print_success (var ++ lit ": " ++ value)
  | _ => print_warning (var ++ lit ": 未设置")
  end.

(** [for x in xs: body x] *)
Fixpoint for_each {A} (xs : list A) (body : A -> M unit) : M unit :=
  match xs with
  | [] => ret tt
  | x :: rest => body x ;;; for_each rest body
  end.

Definition check_environment (environ : gmap pystr pystr) : M unit :=
  print_header (lit "环境变量检查") ;;;
  for_each env_vars (check_env_var environ).

(** ** Python values the script stores in its [results] dictionaries *)

(** A [dict] with string keys keeps insertion order; [d[k] = v] replaces the
    value of an existing key in place and appends a new key at the end. *)
Definition dict (V : Type) : Type := list (pystr * V).

Fixpoint dict_get {V} (d : dict V) (k : pystr) : option V :=
  match d with
  | [] => None
  | (k', v) :: rest => if pystr_eqb k' k then Some v else dict_get rest k
  end.

Fixpoint dict_set {V} (d : dict V) (k : pystr) (v : V) : dict V :=
  match d with
  | [] => [(k, v)]
  | (k', v') :: rest =>
      if pystr_eqb k' k then (k', v) :: rest else (k', v') :: dict_set rest k v
  end.

Inductive pyval :=
| VBool (b : bool)
| VStr (s : pystr)
| VList (l : list pystr)
| VDict (d : dict pystr).

(** [bool(v)] *)
Definition truthy (v : pyval) : bool :=
  match v with
  | VBool b => b
  | VStr s => negb (pystr_eqb s [])
  | VList l => match l with [] => false | _ => true end
  | VDict d => match d with [] => false | _ => true end
  end.

(** ** The collaborators of the script *)

(** One entry of [list_pipelines()]: a dict with the keys the script reads. *)
Record descriptor := {
  id : pystr;
  name : pystr;
  description : pystr
}.

(** A pipeline instance that has the attribute [_parser] (a [RAGPipeline]):
    the [name] of each stage that is set, in the order the script reads them. *)
Record components := {
  _parser : option pystr;
  _chunkers : list pystr;
  _embedder : option pystr;
  _indexers : list pystr;
  _retriever : option pystr
}.

(** What [get_pipeline] returns: [None] when the instance has no attribute
    [_parser]. *)
Definition pipeline := option components.

(** The embedding client: [config_model] is [None] when the client has no
    attribute [config], otherwise the outcome of reading
    [client.config.model]. *)
Record client := { config_model : option (result pystr) }.

Record llm_config := { model : pystr; base_url : pystr }.

(** One entry of [kb_base.iterdir()] with the answers of the file system to
    [is_dir()] and to [exists()] on the three marker paths. *)
Record dir_entry := {
  dir_name : pystr;
  is_dir : bool;
  rag_storage_exists : bool;
  content_list_exists : bool;
  numbered_items_exists : bool
}.

(** The result dict of [rag_search]: the value of its key [answer], if any. *)
Record search_result := { answer : option pystr }.

Record World := {
  (** [os.environ] once both env files are loaded *)
  environ : gmap pystr pystr;
  (** [str(project_root)] *)
  project_root : pystr;
  (** [project_root.parent / "raganything" / "RAG-Anything"] *)
  raganything_path : pystr;
  raganything_path_exists : bool;
  (** [from raganything import RAGAnything, RAGAnythingConfig] *)
  import_raganything : result unit;
  (** [from lightrag import LightRAG] *)
  import_lightrag : result unit;
  (** [from src.services.embedding import ...] then [get_embedding_client()] *)
  get_embedding_client : result client;
  (** [from src.services.llm import ...] then [get_llm_config()] *)
  get_llm_config : result llm_config;
  (** [from src.services.rag.factory import ...] *)
  import_factory : result unit;
  list_pipelines : result (list descriptor);
  get_pipeline : pystr -> result pipeline;
  (** [str(kb_base)], [kb_base.exists()], [kb_base.iterdir()] *)
  kb_base : pystr;
  kb_base_exists : bool;
  kb_base_iterdir : result (list dir_entry);
  (** [from src.tools.rag_tool import rag_search] *)
  import_rag_tool : result unit;
  (** [rag_search(query=, kb_name=, mode=, provider=)], awaited *)
  rag_search : pystr -> pystr -> pystr -> pystr -> result search_result;
  (** Python's [repr] of a list or dict of strings, as an f-string shows it *)
  py_repr : pyval -> pystr
}.

(** How an f-string shows a value. *)
Definition format_value (w : World) (v : pyval) : pystr :=
  match v with
  | VStr s => s
  | VBool true => lit "True"
  | VBool false => lit "False"
  | _ => py_repr w v
  end.

(** ** The dependency and service checks *)

(** The check also puts the path at the head of [sys.path] when it exists;
    what the import then finds is the world's [import_raganything]. *)
Definition check_rag_anything_availability (w : World) : M bool :=
  print_header (lit "RAG-Anything 依赖检查") ;;;
  (if raganything_path_exists w
   then print_success (lit "RAG-Anything 路径存在: " ++ raganything_path w)
   else
     print_warning (lit "RAG-Anything 路径不存在: " ++ raganything_path w) ;;;
     print_info (lit "这会影响 raganything, lightrag, academic pipeline")) ;;;
  try_except except_ImportError
    (lift (import_raganything w) ;;;
     print_success (lit "可以导入 raganything 库") ;;;
     ret true)
    (fun e =>
       print_error (lit "无法导入 raganything: " ++ exn_msg e) ;;;
       ret false).

Definition check_lightrag_availability (w : World) : M bool :=
  print_header (lit "LightRAG 依赖检查") ;;;
  try_except except_ImportError
    (lift (import_lightrag w) ;;;
     print_success (lit "可以导入 lightrag 库") ;;;
     ret true)
    (fun e =>
       print_error (lit "无法导入 lightrag: " ++ exn_msg e) ;;;
       ret false).

Definition check_embedding_service (w : World) : M bool :=
  print_header (lit "Embedding 服务检查") ;;;
  try_except except_Exception
    (client <- lift (get_embedding_client w) ;;
     print_success (lit "Embedding 客户端可用") ;;;
     m <- match config_model client with
          | Some r => lift r
          | None => ret (lit "unknown")
          end ;;
     print_info (lit "Model: " ++ m) ;;;
     ret true)
    (fun e =>
       print_error (lit "Embedding 服务错误: " ++ exn_msg e) ;;;
       ret false).

Definition check_llm_service (w : World) : M bool :=
  print_header (lit "LLM 服务检查") ;;;
  try_except except_Exception
    (config <- lift (get_llm_config w) ;;
     print_success (lit "LLM 配置可用") ;;;
     print_info (lit "Model: " ++ model config) ;;;
     print_info
       (if 50 <? length (base_url config)
        then lit "Base URL: " ++ slice_to 50 (base_url config) ++ lit "..."
        else lit "Base URL: " ++ base_url config) ;;;
     ret true)
    (fun e =>
       print_error (lit "LLM 服务错误: " ++ exn_msg e) ;;;
       ret false).

(** ** check_pipelines *)

(** The [components] list the script builds for a [RAGPipeline]. *)
Definition component_lines (w : World) (p : components) : list pystr :=
  (match _parser p with
   | Some n => [lit "Parser: " ++ n] | None => [] end) ++
  (match _chunkers p with
   | [] => [] | cs => [lit "Chunkers: " ++ py_repr w (VList cs)] end) ++
  (match _embedder p with
   | Some n => [lit "Embedder: " ++ n] | None => [] end) ++
  (match _indexers p with
   | [] => [] | ixs => [lit "Indexers: " ++ py_repr w (VList ixs)] end) ++
  (match _retriever p with
   | Some n => [lit "Retriever: " ++ n] | None => [] end).

(** One iteration of the loop over the registered pipelines. *)
Definition check_pipeline (w : World) (results : dict pystr) (p : descriptor)
    : M (dict pystr) :=
  let pid := id p in
  print (NL ++ Colors.BOLD ++ lit "  [" ++ pid ++ lit "]" ++ Colors.END
         ++ lit " " ++ name p) ;;;
  print (lit "    描述: " ++ description p) ;;;
  try_except except_Exception
    (pipeline <- lift (get_pipeline w pid) ;;
     print_success (lit "Pipeline 实例创建成功") ;;;
     match pipeline with
     | Some comps => for_each (component_lines w comps) print_info
     | None => ret tt
     end ;;;
     ret (dict_set results pid (lit "available")))
    (fun e =>
       print_error (lit "Pipeline 创建失败: " ++ exn_msg e) ;;;
       ret (dict_set results pid (lit "error: " ++ exn_msg e))).

Fixpoint check_pipelines_loop (w : World) (pipelines : list descriptor)
    (results : dict pystr) : M (dict pystr) :=
  match pipelines with
  | [] => ret results
  | p :: rest =>
      results' <- check_pipeline w results p ;;
      check_pipelines_loop w rest results'
  end.

Definition check_pipelines (w : World) : M (dict pystr) :=
  print_header (lit "Pipeline 可用性检查") ;;;
  lift (import_factory w) ;;;
  pipelines <- lift (list_pipelines w) ;;
  print_info (lit "已注册 " ++ str_of_nat (length pipelines)
              ++ lit " 个 pipeline" ++ NL) ;;;
  check_pipelines_loop w pipelines [].

(** ** test_pipeline_search *)

Definition search_query : pystr := lit "What is the main topic?".

(** [[d.name for d in kb_base.iterdir()
      if d.is_dir() and (d / "rag_storage").exists()]] *)
Definition dirs_with_rag_storage (entries : list dir_entry) : list pystr :=
  map dir_name
    (List.filter (fun d => is_dir d && rag_storage_exists d) entries).

(** The lookup the search test does when it gets no [kb_name]. *)
Definition find_existing_kb (w : World) : M (option pystr) :=
  if kb_base_exists w then
    entries <- lift (kb_base_iterdir w) ;;
    match dirs_with_rag_storage entries with
    | kb :: _ =>
        print_info (lit "使用已有知识库: " ++ kb) ;;;
        ret (Some kb)
    | [] => ret None
    end
  else ret None.

Definition test_pipeline_search (w : World) (pipeline_id : pystr)
    (kb_name : option pystr) : M bool :=
  lift (import_rag_tool w) ;;;
  lift (import_factory w) ;;;
  print (NL ++ lit "  测试 " ++ pipeline_id ++ lit " 搜索功能...") ;;;
  kb_name <- match kb_name with
             | None => find_existing_kb w
             | Some kb => ret (Some kb)
             end ;;
  match kb_name with
  | None =>
      print_warning (lit "没有找到可用的知识库，跳过搜索测试") ;;;
      ret false
  | Some kb_name =>
      try_except except_Exception
        (emit (RagSearch search_query kb_name (lit "naive") pipeline_id) ;;;
         result <- lift (rag_search w search_query kb_name (lit "naive")
                           pipeline_id) ;;
         let answer_len := length (default (lit "") (answer result)) in
         if 0 <? answer_len then
           print_success (lit "搜索成功，返回 " ++ str_of_nat answer_len
                          ++ lit " 字符") ;;;
           ret true
         else
           print_warning (lit "搜索返回空结果") ;;;
           ret false)
        (fun e =>
           print_error (lit "搜索失败: " ++ exn_msg e) ;;;
           ret false)
  end.

(** ** check_existing_knowledge_bases *)

(** The [status] list built for one directory. *)
Definition kb_status (d : dir_entry) : list pystr :=
  (if rag_storage_exists d then [lit "rag_storage"] else []) ++
  (if content_list_exists d then [lit "content_list"] else []) ++
  (if numbered_items_exists d then [lit "numbered_items"] else []).

(** One iteration of the loop over [kb_base.iterdir()]. *)
Definition check_kb_dir (kbs : list pystr) (kb_dir : dir_entry)
    : M (list pystr) :=
  if is_dir kb_dir then
    let kb_name := dir_name kb_dir in
    let status := kb_status kb_dir in
    match status with
    | _ :: _ =>
        print_success (kb_name ++ lit ": " ++ join (lit ", ") status) ;;;
        ret (kbs ++ [kb_name])
    | [] =>
        print_warning (kb_name ++ lit ": 空知识库") ;;;
        ret kbs
    end
  else ret kbs.

Fixpoint check_kb_dirs (entries : list dir_entry) (kbs : list pystr)
    : M (list pystr) :=
  match entries with
  | [] => ret kbs
  | kb_dir :: rest =>
      kbs' <- check_kb_dir kbs kb_dir ;;
      check_kb_dirs rest kbs'
  end.

Definition check_existing_knowledge_bases (w : World) : M (list pystr) :=
  print_header (lit "已有知识库检查") ;;;
  if negb (kb_base_exists w) then
    print_warning (lit "知识库目录不存在: " ++ kb_base w) ;;;
    ret []
  else
    entries <- lift (kb_base_iterdir w) ;;
    kbs <- check_kb_dirs entries [] ;;
    match kbs with
    | [] => print_warning (lit "没有找到已初始化的知识库")
    | _ => ret tt
    end ;;;
    ret kbs.

(** ** print_summary and print_recommendations *)

Definition summary_line (w : World) (kv : pystr * pyval) : M unit :=
  let '(key, value) := kv in
  match value with
  | VBool true => print_success (key ++ lit ": 可用")
  | VBool false => print_error (key ++ lit ": 不可用")
  | VStr s =>
      if pystr_eqb s (lit "available") then print_success (key ++ lit ": 可用")
      else if startswith s (lit "error")
           then print_error (key ++ lit ": " ++ s)
           else print_warning (key ++ lit ": " ++ s)
  | _ => print_warning (key ++ lit ": " ++ format_value w value)
  end.

Definition print_summary (w : World) (results : dict pyval) : M unit :=
  print_header (lit "诊断总结") ;;;
  for_each results (summary_line w).

(** [not results.get(key)] *)
Definition missing (results : dict pyval) (key : pystr) : bool :=
  match dict_get results key with
  | Some v => negb (truthy v)
  | None => true
  end.

Definition rec_rag_anything : pystr :=
  lit "安装 RAG-Anything:" ++ NL ++
  lit "    git clone https://github.com/HKUDS/RAG-Anything.git ../raganything/RAG-Anything" ++ NL ++
  lit "    pip install -r ../raganything/RAG-Anything/requirements.txt".

Definition rec_embedding : pystr :=
  lit "配置 Embedding 服务:" ++ NL ++
  lit "    确保在 DeepTutor.env 或 .env 中设置了正确的 API key 和 base URL".

Definition rec_llm : pystr :=
  lit "配置 LLM 服务:" ++ NL ++
  lit "    确保在 DeepTutor.env 或 .env 中设置了正确的 OPENAI_API_KEY".

Definition attribute_error (type_name : string) : exn :=
  {| exn_class := OtherException;
     exn_msg := lit "'" ++ lit type_name
                ++ lit "' object has no attribute 'get'" |}.

(** [results.get("pipelines", {}).get("llamaindex") == "available"];
    only a dict has the method [get]. *)
Definition llamaindex_available (results : dict pyval) : M bool :=
  match dict_get results (lit "pipelines") with
  | None => ret false
  | Some (VDict d) =>
      ret (match dict_get d (lit "llamaindex") with
           | Some v => pystr_eqb v (lit "available")
           | None => false
           end)
  | Some (VBool _) => raise (attribute_error "bool")
  | Some (VStr _) => raise (attribute_error "str")
  | Some (VList _) => raise (attribute_error "list")
  end.

(** [for i, rec in enumerate(recommendations, i0): print(...)] *)
Fixpoint print_numbered (i : nat) (recommendations : list pystr) : M unit :=
  match recommendations with
  | [] => ret tt
  | rec :: rest =>
      print (NL ++ lit "  " ++ str_of_nat i ++ lit ". " ++ rec) ;;;
      print_numbered (S i) rest
  end.

Definition print_recommendations (results : dict pyval) : M unit :=
  print_header (lit "建议") ;;;
  let recommendations :=
    (if missing results (lit "rag_anything_lib")
     then [rec_rag_anything] else []) ++
    (if missing results (lit "embedding_service")
     then [rec_embedding] else []) ++
    (if missing results (lit "llm_service") then [rec_llm] else []) in
  avail <- llamaindex_available results ;;
  (if avail
   then print_success
          (lit "llamaindex pipeline 可以在没有 RAG-Anything 的情况下使用 (轻量级向量搜索)")
   else ret tt) ;;;
  match recommendations with
  | _ :: _ => print_numbered 1 recommendations
  | [] => print_success (lit "所有服务正常运行!")
  end.

(** ** main *)

Definition main (w : World) : M unit :=
  print (NL ++ Colors.BOLD ++ lit "DeepTutor RAG Pipeline 诊断工具"
         ++ Colors.END) ;;;
  print (lit "项目根目录: " ++ project_root w ++ NL) ;;;
  let results : dict pyval := [] in
  check_environment (environ w) ;;;
  b <- check_embedding_service w ;;
  let results := dict_set results (lit "embedding_service") (VBool b) in
  b <- check_llm_service w ;;
  let results := dict_set results (lit "llm_service") (VBool b) in
  b <- check_rag_anything_availability w ;;
  let results := dict_set results (lit "rag_anything_lib") (VBool b) in
  b <- check_lightrag_availability w ;;
  let results := dict_set results (lit "lightrag_lib") (VBool b) in
  d <- check_pipelines w ;;
  let results := dict_set results (lit "pipelines") (VDict d) in
  kbs <- check_existing_knowledge_bases w ;;
  let results := dict_set results (lit "knowledge_bases") (VList kbs) in
  print_summary w results ;;;
  print_recommendations results ;;;
  match kbs with
  | first_kb :: _ =>
      if negb (missing results (lit "rag_anything_lib")) then
        print_header (lit "搜索功能测试") ;;;
        for_each [lit "raganything"]
          (fun pipeline_id =>
             test_pipeline_search w pipeline_id (Some first_kb) ;;; ret tt)
      else ret tt
  | [] => ret tt
  end.

(** [asyncio.run(main())] as the process sees it: exit status 0 when [main]
    returns, 1 (after a traceback) when an exception leaves it. *)
Definition exit_status (m : M unit) : nat :=
  match snd m with
  | Ok _ => 0
  | Raise _ => 1
  end.

Definition run (w : World) : list event * nat :=
  (fst (main w), exit_status (main w)).

(** ** Sample inputs

    Environments and worlds on which the script is run below. *)

Definition api_key_env : gmap pystr pystr :=
  <[lit "OPENAI_API_KEY" := lit "sk-abcdefghijklmnop"]>
    (<[lit "LLM_MODEL" := lit ""]> ∅).

(** ** The steps of a run

    The headers printed and the search requests sent, in order: each check
    prints its header first, so the headers of a trace tell which checks
    ran and in which order. *)
Inductive step :=
| Stage (header : pystr)
| LiveSearch (query kb_name mode provider : pystr).

Definition step_of (ev : event) : option step :=
  match ev with
  | Header t => Some (Stage t)
  | RagSearch q kb m p => Some (LiveSearch q kb m p)
  | _ => None
  end.

Definition steps (tr : list event) : list step := omap step_of tr.

(** A directory is a usable knowledge base when at least one of the three
    marker paths exists in it. *)
Definition has_marker (d : dir_entry) : bool :=
  rag_storage_exists d || content_list_exists d || numbered_items_exists d.

(** The names of the directories of a listing that have a marker. *)
Definition usable_kbs (entries : list dir_entry) : list pystr :=
  map dir_name (List.filter (fun d => is_dir d && has_marker d) entries).

(** The labels of the marker paths that exist in a directory. *)
Definition present_markers (d : dir_entry) : list pystr :=
  map fst
    (List.filter snd
       [ (lit "rag_storage", rag_storage_exists d);
         (lit "content_list", content_list_exists d);
         (lit "numbered_items", numbered_items_exists d) ]).

Definition notes_dir : dir_entry :=
  {| dir_name := lit "notes"; is_dir := true; rag_storage_exists := false;
     content_list_exists := true; numbered_items_exists := false |}.

Definition scratch_dir : dir_entry :=
  {| dir_name := lit "scratch"; is_dir := true; rag_storage_exists := false;
     content_list_exists := false; numbered_items_exists := false |}.

Definition readme_file : dir_entry :=
  {| dir_name := lit "README.md"; is_dir := false;
     rag_storage_exists := false; content_list_exists := false;
     numbered_items_exists := false |}.

Definition sample_entries : list dir_entry :=
  [notes_dir; scratch_dir; readme_file].

Definition sample_pipelines : list descriptor :=
  [ {| id := lit "llamaindex"; name := lit "LlamaIndex";
       description := lit "vector search" |};
    {| id := lit "raganything"; name := lit "RAG-Anything";
       description := lit "multimodal" |} ].

(** An installation in which [llamaindex] can be built and every other
    pipeline fails; the remaining collaborators are the parameters. *)
Definition sample_world (factory : result unit)
    (pipelines : result (list descriptor))
    (listing : result (list dir_entry))
    (found : result search_result) : World :=
  {| environ := api_key_env;
     project_root := lit "/app";
     raganything_path := lit "/raganything/RAG-Anything";
     raganything_path_exists := true;
     import_raganything := Ok tt;
     import_lightrag :=
       Raise {| exn_class := ImportError;
                exn_msg := lit "No module named 'lightrag'" |};
     get_embedding_client :=
       Ok {| config_model := Some (Ok (lit "text-embedding-3-small")) |};
     get_llm_config :=
       Raise {| exn_class := OtherException;
                exn_msg := lit "LLM_MODEL is not set" |};
     import_factory := factory;
     list_pipelines := pipelines;
     get_pipeline := fun pid =>
       if pystr_eqb pid (lit "llamaindex") then Ok None
       else Raise {| exn_class := OtherException;
                     exn_msg := lit "not initialised" |};
     kb_base := lit "/app/data/knowledge_bases";
     kb_base_exists := true;
     kb_base_iterdir := listing;
     import_rag_tool := Ok tt;
     rag_search := fun _ _ _ _ => found;
     py_repr := fun _ => lit "<repr>" |}.

(** What the pipeline check stores for a pipeline id. *)
Inductive pipeline_entry (w : World) (pid : pystr) : pystr -> Prop :=
| entry_available pl :
    get_pipeline w pid = Ok pl ->
    pipeline_entry w pid (lit "available")
| entry_error e :
    get_pipeline w pid = Raise e ->
    pipeline_entry w pid (lit "error: " ++ exn_msg e).

(** What each handler makes of the outcome of an import. *)
Definition import_result (r : result unit) : result bool :=
  match r with
  | Ok _ => Ok true
  | Raise e =>
      match exn_class e with
      | ImportError => Ok false
      | OtherException => Raise e
      end
  end.

(** The [results] dict of [main] once the six checks have returned. *)
Definition main_results (be bl br bli : bool) (d : dict pystr)
    (kbs : list pystr) : dict pyval :=
  [ (lit "embedding_service", VBool be);
    (lit "llm_service", VBool bl);
    (lit "rag_anything_lib", VBool br);
    (lit "lightrag_lib", VBool bli);
    (lit "pipelines", VDict d);
    (lit "knowledge_bases", VList kbs) ].

(** The two lines [main] prints first. *)
Definition banner (w : World) : list event :=
  [ Print (NL ++ Colors.BOLD ++ lit "DeepTutor RAG Pipeline 诊断工具"
           ++ Colors.END);
    Print (lit "项目根目录: " ++ project_root w ++ NL) ].

(** The end of [main]: the search test, run when the scan returned [kbs]
    and the RAG-Anything check returned [br]. *)
Definition search_tests (w : World) (br : bool) (kbs : list pystr) : M unit :=
  match kbs with
  | first_kb :: _ =>
      if br then
        (Header (lit "搜索功能测试")
           :: fst (test_pipeline_search w (lit "raganything") (Some first_kb)),
         match snd (test_pipeline_search w (lit "raganything")
                      (Some first_kb)) with
         | Ok _ => Ok tt
         | Raise e => Raise e
         end)
      else ([], Ok tt)
  | [] => ([], Ok tt)
  end.

(** The headers of the checks, in the order [main] calls them. *)
Definition check_order : list pystr :=
  [ lit "环境变量检查";
    lit "Embedding 服务检查";
    lit "LLM 服务检查";
    lit "RAG-Anything 依赖检查";
    lit "LightRAG 依赖检查";
    lit "Pipeline 可用性检查";
    lit "已有知识库检查";
    lit "诊断总结";
    lit "建议";
    lit "搜索功能测试" ].

(** The steps of a complete run that searches the knowledge base [kb]. *)
Definition fixed_order (kb : pystr) : list step :=
  map Stage check_order
  ++ [LiveSearch search_query kb (lit "naive") (lit "raganything")].

(** What [main] has printed when it reaches the search test. *)
Definition checks_trace (w : World) (be bl br bli : bool) (d : dict pystr)
    (kbs : list pystr) : list event :=
  banner w
  ++ fst (check_environment (environ w))
  ++ fst (check_embedding_service w)
  ++ fst (check_llm_service w)
  ++ fst (check_rag_anything_availability w)
  ++ fst (check_lightrag_availability w)
  ++ fst (check_pipelines w)
  ++ fst (check_existing_knowledge_bases w)
  ++ fst (print_summary w (main_results be bl br bli d kbs))
  ++ fst (print_recommendations (main_results be bl br bli d kbs)).

Definition no_module (m : string) : exn :=
  {| exn_class := ImportError;
     exn_msg := lit "No module named '" ++ lit m ++ lit "'" |}.

(** The search finds nothing: the answer is the empty string. *)
Definition empty_answer_world : World :=
  sample_world (Ok tt) (Ok sample_pipelines) (Ok sample_entries)
    (Ok {| answer := Some (lit "") |}).

(** The search answers. *)
Definition answering_world : World :=
  sample_world (Ok tt) (Ok sample_pipelines) (Ok sample_entries)
    (Ok {| answer := Some (lit "Graph theory.") |}).

(** The pipeline registry cannot be imported. *)
Definition registry_down : World :=
  sample_world (Raise (no_module "llama_index")) (Ok sample_pipelines)
    (Ok sample_entries) (Ok {| answer := Some (lit "Graph theory.") |}).

(** The same collaborators over another state of the knowledge-base
    directory. *)
Definition with_kb_base (exists_ : bool) (listing : result (list dir_entry))
    (w : World) : World :=
  {| environ := environ w;
     project_root := project_root w;
     raganything_path := raganything_path w;
     raganything_path_exists := raganything_path_exists w;
     import_raganything := import_raganything w;
     import_lightrag := import_lightrag w;
     get_embedding_client := get_embedding_client w;
     get_llm_config := get_llm_config w;
     import_factory := import_factory w;
     list_pipelines := list_pipelines w;
     get_pipeline := get_pipeline w;
     kb_base := kb_base w;
     kb_base_exists := exists_;
     kb_base_iterdir := listing;
     import_rag_tool := import_rag_tool w;
     rag_search := rag_search w;
     py_repr := py_repr w |}.

(** The search itself fails. *)
Definition search_down : World :=
  sample_world (Ok tt) (Ok sample_pipelines) (Ok sample_entries)
    (Raise {| exn_class := OtherException; exn_msg := lit "timed out" |}).

(** The same collaborators with other outcomes of the two library
    imports. *)
Definition with_library_imports (rag light : result unit) (w : World)
    : World :=
  {| environ := environ w;
     project_root := project_root w;
     raganything_path := raganything_path w;
     raganything_path_exists := raganything_path_exists w;
     import_raganything := rag;
     import_lightrag := light;
     get_embedding_client := get_embedding_client w;
     get_llm_config := get_llm_config w;
     import_factory := import_factory w;
     list_pipelines := list_pipelines w;
     get_pipeline := get_pipeline w;
     kb_base := kb_base w;
     kb_base_exists := kb_base_exists w;
     kb_base_iterdir := kb_base_iterdir w;
     import_rag_tool := import_rag_tool w;
     rag_search := rag_search w;
     py_repr := py_repr w |}.

Definition version_clash : exn :=
  {| exn_class := OtherException;
     exn_msg := lit "module 'numpy' has no attribute 'float'" |}.

(** RAG-Anything is installed but fails while it is imported. *)
Definition broken_library_world : World :=
  with_library_imports (Raise version_clash) (Ok tt) answering_world.

(** The knowledge-base directory does not exist; nothing can be listed. *)
Definition missing_dir_world : World :=
  with_kb_base false
    (Raise {| exn_class := OtherException;
              exn_msg := lit "No such file or directory" |})
    answering_world.

Definition papers_dir : dir_entry :=
  {| dir_name := lit "papers"; is_dir := true; rag_storage_exists := true;
     content_list_exists := true; numbered_items_exists := true |}.

Definition thesis_dir : dir_entry :=
  {| dir_name := lit "thesis"; is_dir := true; rag_storage_exists := true;
     content_list_exists := false; numbered_items_exists := false |}.

(** A directory in which the second and the fourth entry have rag_storage. *)
Definition indexed_world : World :=
  with_kb_base true (Ok [notes_dir; papers_dir; readme_file; thesis_dir])
    answering_world.

(** The search returns a dict without the key [answer]. *)
Definition no_answer_world : World :=
  sample_world (Ok tt) (Ok sample_pipelines) (Ok sample_entries)
    (Ok {| answer := None |}).

(** The registry lists [llamaindex] twice. *)
Definition twice_listed : list descriptor :=
  sample_pipelines
  ++ [ {| id := lit "llamaindex"; name := lit "LlamaIndex (alias)";
          description := lit "vector search" |} ].

(** The same collaborators with another outcome of the import of the
    search tool. *)
Definition with_rag_tool (tool : result unit) (w : World) : World :=
  {| environ := environ w;
     project_root := project_root w;
     raganything_path := raganything_path w;
     raganything_path_exists := raganything_path_exists w;
     import_raganything := import_raganything w;
     import_lightrag := import_lightrag w;
     get_embedding_client := get_embedding_client w;
     get_llm_config := get_llm_config w;
     import_factory := import_factory w;
     list_pipelines := list_pipelines w;
     get_pipeline := get_pipeline w;
     kb_base := kb_base w;
     kb_base_exists := kb_base_exists w;
     kb_base_iterdir := kb_base_iterdir w;
     import_rag_tool := tool;
     rag_search := rag_search w;
     py_repr := py_repr w |}.

(** The search tool cannot be imported. *)
Definition no_search_tool_world : World :=
  with_rag_tool (Raise (no_module "src.tools.rag_tool")) answering_world.

(** The recommendations due when the three checks [main] asks about
    returned [be] (embedding), [bl] (LLM) and [br] (RAG-Anything). *)
Definition recommendations_for (be bl br : bool) : list pystr :=
  (if br then [] else [rec_rag_anything])
  ++ (if be then [] else [rec_embedding])
  ++ (if bl then [] else [rec_llm]).

(** Whether a pipeline mapping holds ["available"] under [llamaindex]. *)
Definition llamaindex_is_available (d : dict pystr) : bool :=
  match dict_get d (lit "llamaindex") with
  | Some v => pystr_eqb v (lit "available")
  | None => false
  end.

Definition llamaindex_note : pystr :=
  lit "llamaindex pipeline 可以在没有 RAG-Anything 的情况下使用 (轻量级向量搜索)".

(** * Properties *)

(** ** Literals and string helpers *)

#[global] Opaque lit.
Arguments lit : simpl never.

Example lit_not_set : lit "未设置" = [26410; 35774; 32622]%N.
Proof. reflexivity. Qed.

Example mask_long :
  mask (lit "sk-abcdefghijklmnop") = lit "sk-abcde...mnop".
Proof. reflexivity. Qed.

Example mask_13 : mask (lit "0123456789abc") = lit "01234567...9abc".
Proof. reflexivity. Qed.

Example mask_12 : mask (lit "0123456789ab") = lit "***".
Proof. reflexivity. Qed.

Example render_warning :
  render (Warning (lit "LLM_MODEL: 未设置"))
  = lit "  " ++ ESC ++ lit "[93m⚠" ++ ESC ++ lit "[0m LLM_MODEL: 未设置" ++ NL.
Proof. vm_compute. reflexivity. Qed.

Lemma pystr_eqb_eq (a b : pystr) : pystr_eqb a b = true <-> a = b.
Proof.
  revert b; induction a as [|c a IH]; intros [|d b]; simpl; try easy.
  rewrite andb_true_iff, N.eqb_eq, IH.
  split; [intros [-> ->]; reflexivity | intros [= -> ->]; auto].
Qed.

Lemma pystr_eqb_refl (a : pystr) : pystr_eqb a a = true.
Proof. apply pystr_eqb_eq; reflexivity. Qed.

Lemma slice_last_length (n : nat) (s : pystr) :
  n <= length s -> length (slice_last n s) = n.
Proof. intros H. unfold slice_last. rewrite length_drop. lia. Qed.

(** ** The effect monad *)

Section MonadLaws.
Context {A B : Type}.
Implicit Types (m : M A) (f : A -> M B).

Lemma bind_ok m f t a :
  m = (t, Ok a) -> bind m f = (t ++ fst (f a), snd (f a)).
Proof. intros ->. unfold bind. destruct (f a); reflexivity. Qed.

Lemma bind_raise m f t e :
  m = (t, Raise e) -> bind m f = (t, Raise e).
Proof. intros ->. reflexivity. Qed.

Lemma fst_bind m f :
  fst (bind m f) =
  fst m ++ match snd m with Ok a => fst (f a) | Raise _ => [] end.
Proof.
  destruct m as [t [a|e]]; simpl.
  - destruct (f a); reflexivity.
  - rewrite app_nil_r; reflexivity.
Qed.

Lemma snd_bind m f :
  snd (bind m f) =
  match snd m with Ok a => snd (f a) | Raise e => Raise e end.
Proof.
  destruct m as [t [a|e]]; simpl; [destruct (f a)|]; reflexivity.
Qed.
End MonadLaws.

Lemma bind_ret {A B} (a : A) (f : A -> M B) : bind (ret a) f = f a.
Proof. unfold bind, ret. destruct (f a); reflexivity. Qed.

Lemma lift_ok {A} (a : A) : lift (Ok a) = ret a.
Proof. reflexivity. Qed.

Lemma try_except_ok {A} catches (body : M A) handler t a :
  body = (t, Ok a) -> try_except catches body handler = (t, Ok a).
Proof. intros ->. reflexivity. Qed.

Lemma try_except_caught {A} catches (body : M A) handler t e :
  body = (t, Raise e) -> catches (exn_class e) = true ->
  try_except catches body handler = (t ++ fst (handler e), snd (handler e)).
Proof.
  intros -> H. unfold try_except. rewrite H. destruct (handler e); reflexivity.
Qed.

Lemma try_except_escapes {A} catches (body : M A) handler t e :
  body = (t, Raise e) -> catches (exn_class e) = false ->
  try_except catches body handler = (t, Raise e).
Proof. intros -> H. unfold try_except. rewrite H. reflexivity. Qed.

(** A loop whose body never raises runs every iteration in order. *)
Lemma for_each_ok {A} (xs : list A) (body : A -> M unit) :
  (forall x, In x xs -> snd (body x) = Ok tt) ->
  for_each xs body = (flat_map (fun x => fst (body x)) xs, Ok tt).
Proof.
  induction xs as [|x xs IH]; intros H; simpl; [reflexivity|].
  assert (Hx : body x = (fst (body x), Ok tt)).
  { rewrite <- (H x) by (left; reflexivity). apply surjective_pairing. }
  rewrite (bind_ok _ _ _ _ Hx), IH by (intros; apply H; right; assumption).
  reflexivity.
Qed.

(** ** check_environment *)

Lemma check_env_var_ok environ vd : snd (check_env_var environ vd) = Ok tt.
Proof.
  destruct vd as [var dflt]. unfold check_env_var.
  destruct (getenv environ var dflt) as [[|c s]|]; try reflexivity.
  destruct (contains _ _ && _); reflexivity.
Qed.

Lemma check_environment_trace environ :
  check_environment environ =
  (Header (lit "环境变量检查")
     :: flat_map (fun vd => fst (check_env_var environ vd)) env_vars,
   Ok tt).
Proof.
  unfold check_environment, print_header.
  rewrite (bind_ok _ _ [Header (lit "环境变量检查")] tt) by reflexivity.
  rewrite for_each_ok by (intros; apply check_env_var_ok).
  reflexivity.
Qed.

Lemma check_environment_reports environ vd ev :
  In vd env_vars -> check_env_var environ vd = emit ev ->
  In ev (fst (check_environment environ)).
Proof.
  intros Hin Hev. rewrite check_environment_trace. cbn [fst]. right.
  apply in_flat_map. exists vd. split; [assumption|].
  rewrite Hev. left; reflexivity.
Qed.


Lemma api_key_env_model : api_key_env !! lit "LLM_MODEL" = Some (lit "").
Proof.
  unfold api_key_env. rewrite lookup_insert_ne by discriminate.
  apply lookup_insert_eq.
Qed.






(** The default of RAG_PROVIDER is printed when the variable is unset. *)
Lemma rag_provider_default (environ : gmap pystr pystr) :
  environ !! lit "RAG_PROVIDER" = None ->
  check_env_var environ (lit "RAG_PROVIDER", Some (lit "raganything"))
  = print_success (lit "RAG_PROVIDER: raganything").
Proof. intros H. unfold check_env_var, getenv. rewrite H. reflexivity. Qed.

(** C9: a variable that is set to the empty string is reported as not set,
    with the very warning an absent variable without default gets: the test
    is the truth value of what [os.getenv] returned. *)
Theorem empty_value_reported_not_set (environ : gmap pystr pystr)
    (var : pystr) (dflt : option pystr) :
  In (var, dflt) env_vars ->
  environ !! var = @Some pystr [] ->
  check_env_var environ (var, dflt) = print_warning (var ++ lit ": 未设置")
  /\ check_env_var environ (var, dflt)
     = check_env_var (delete var environ) (var, None)
  /\ In (Warning (var ++ lit ": 未设置")) (fst (check_environment environ)).
Proof.
  intros Hin Hset.
  assert (Hbody : check_env_var environ (var, dflt)
                  = print_warning (var ++ lit ": 未设置")).
  { unfold check_env_var, getenv. rewrite Hset. reflexivity. }
  split; [exact Hbody|]. split.
  - rewrite Hbody. unfold check_env_var, getenv.
    rewrite lookup_delete_eq. reflexivity.
  - eapply check_environment_reports; eassumption.
Qed.

Lemma empty_value_reported_not_set_witness :
  In (Warning (lit "LLM_MODEL: 未设置")) (fst (check_environment api_key_env)).
Proof.
  apply (empty_value_reported_not_set api_key_env (lit "LLM_MODEL") None).
  - right; right; right; left; reflexivity.
  - exact api_key_env_model.
Defined.

(** The same holds for RAG_PROVIDER: an empty value hides the default. *)
Example empty_rag_provider :
  check_env_var (<[lit "RAG_PROVIDER" := lit ""]> ∅)
    (lit "RAG_PROVIDER", Some (lit "raganything"))
  = print_warning (lit "RAG_PROVIDER: 未设置").
Proof.
  unfold check_env_var, getenv. rewrite lookup_insert_eq. reflexivity.
Qed.

(** ** check_existing_knowledge_bases *)

Lemma kb_status_present d : kb_status d = present_markers d.
Proof.
  unfold kb_status, present_markers.
  destruct (rag_storage_exists d), (content_list_exists d),
    (numbered_items_exists d); reflexivity.
Qed.

Lemma kb_status_nil d : kb_status d = [] <-> has_marker d = false.
Proof.
  unfold kb_status, has_marker.
  destruct (rag_storage_exists d), (content_list_exists d),
    (numbered_items_exists d); simpl; split; easy.
Qed.

Lemma check_kb_dir_usable kbs d :
  is_dir d = true -> has_marker d = true ->
  check_kb_dir kbs d
  = ([Success (dir_name d ++ lit ": " ++ join (lit ", ") (kb_status d))],
     Ok (kbs ++ [dir_name d])).
Proof.
  intros Hdir Hm. unfold check_kb_dir. rewrite Hdir.
  destruct (kb_status d) eqn:E; [|reflexivity].
  apply kb_status_nil in E. congruence.
Qed.

Lemma check_kb_dir_empty kbs d :
  is_dir d = true -> has_marker d = false ->
  check_kb_dir kbs d = ([Warning (dir_name d ++ lit ": 空知识库")], Ok kbs).
Proof.
  intros Hdir Hm. unfold check_kb_dir. rewrite Hdir.
  apply kb_status_nil in Hm. rewrite Hm. reflexivity.
Qed.

Lemma check_kb_dir_file kbs d :
  is_dir d = false -> check_kb_dir kbs d = ([], Ok kbs).
Proof. intros Hdir. unfold check_kb_dir. rewrite Hdir. reflexivity. Qed.

(** The loop over the listing: one line per directory, and the names of the
    directories with a marker, in listing order. *)
Lemma check_kb_dirs_spec entries kbs :
  check_kb_dirs entries kbs
  = (flat_map (fun d => fst (check_kb_dir [] d)) entries,
     Ok (kbs ++ map dir_name
                  (List.filter (fun d => is_dir d && has_marker d) entries))).
Proof.
  revert kbs. induction entries as [|d entries IH]; intros kbs.
  - simpl. rewrite app_nil_r. reflexivity.
  - cbn [check_kb_dirs flat_map List.filter].
    destruct (is_dir d) eqn:Hdir; [destruct (has_marker d) eqn:Hm|].
    + rewrite (bind_ok _ _ _ _ (check_kb_dir_usable kbs d Hdir Hm)), IH.
      rewrite (check_kb_dir_usable [] d Hdir Hm). cbn [fst snd andb map].
      rewrite <- app_assoc. reflexivity.
    + rewrite (bind_ok _ _ _ _ (check_kb_dir_empty kbs d Hdir Hm)), IH.
      rewrite (check_kb_dir_empty [] d Hdir Hm). reflexivity.
    + rewrite (bind_ok _ _ _ _ (check_kb_dir_file kbs d Hdir)), IH.
      rewrite (check_kb_dir_file [] d Hdir). reflexivity.
Qed.

Lemma check_existing_knowledge_bases_listed w entries :
  kb_base_exists w = true -> kb_base_iterdir w = Ok entries ->
  check_existing_knowledge_bases w
  = (Header (lit "已有知识库检查")
       :: flat_map (fun d => fst (check_kb_dir [] d)) entries
       ++ match usable_kbs entries with
          | [] => [Warning (lit "没有找到已初始化的知识库")]
          | _ => []
          end,
     Ok (usable_kbs entries)).
Proof.
  intros Hex Hls. unfold check_existing_knowledge_bases, print_header.
  rewrite (bind_ok _ _ [Header (lit "已有知识库检查")] tt) by reflexivity.
  rewrite Hex. cbn [negb].
  rewrite (bind_ok (lift (kb_base_iterdir w)) _ [] entries)
    by (rewrite Hls; reflexivity).
  rewrite (bind_ok _ _ _ _ (check_kb_dirs_spec entries [])).
  cbn [app]. fold (usable_kbs entries).
  destruct (usable_kbs entries); reflexivity.
Qed.

Lemma check_existing_knowledge_bases_missing w :
  kb_base_exists w = false ->
  check_existing_knowledge_bases w
  = ([Header (lit "已有知识库检查");
      Warning (lit "知识库目录不存在: " ++ kb_base w)], Ok []).
Proof.
  intros Hex. unfold check_existing_knowledge_bases. rewrite Hex. reflexivity.
Qed.

Lemma NoDup_map_inj {A B} (f : A -> B) (l : list A) x y :
  List.NoDup (map f l) -> In x l -> In y l -> f x = f y -> x = y.
Proof.
  induction l as [|a l IH]; simpl; [easy|].
  intros Hnd Hx Hy Hf. apply NoDup_cons_iff in Hnd as [Hnotin Hnd].
  destruct Hx as [->|Hx], Hy as [->|Hy]; auto.
  - exfalso. apply Hnotin. rewrite Hf. apply in_map. assumption.
  - exfalso. apply Hnotin. rewrite <- Hf. apply in_map. assumption.
Qed.

(** C4: in a scan of the knowledge-base root, a subdirectory with at least
    one marker path is reported as found with exactly the list of its
    present markers (a directory with only content_list: exactly
    content_list), is not marked empty and is in the returned list; a
    subdirectory with none of the markers is marked empty and is not in the
    returned list. *)
Theorem kb_scan_reports w entries :
  kb_base_exists w = true ->
  kb_base_iterdir w = Ok entries ->
  List.NoDup (map dir_name entries) ->
  exists tr kbs,
    check_existing_knowledge_bases w = (tr, Ok kbs)
    /\ forall d, In d entries -> is_dir d = true ->
       let empty_line := Warning (dir_name d ++ lit ": 空知识库") in
       (has_marker d = true ->
          In (Success (dir_name d ++ lit ": "
                       ++ join (lit ", ") (present_markers d))) tr
          /\ ~ In empty_line tr
          /\ In (dir_name d) kbs)
       /\ (rag_storage_exists d = false -> content_list_exists d = true ->
           numbered_items_exists d = false ->
           In (Success (dir_name d ++ lit ": content_list")) tr)
       /\ (has_marker d = false ->
           In empty_line tr /\ ~ In (dir_name d) kbs).
Proof.
  intros Hex Hls Hnd.
  eexists _, _. split;
    [apply check_existing_knowledge_bases_listed; eassumption|].
  intros d Hin Hdir empty_line.
  assert (Hfound : has_marker d = true ->
            In (Success (dir_name d ++ lit ": "
                         ++ join (lit ", ") (present_markers d)))
               (Header (lit "已有知识库检查")
                :: flat_map (fun d => fst (check_kb_dir [] d)) entries
                ++ match usable_kbs entries with
                   | [] => [Warning (lit "没有找到已初始化的知识库")]
                   | _ => []
                   end)).
  { intros Hm. right. apply in_or_app. left. apply in_flat_map.
    exists d. split; [assumption|].
    rewrite (check_kb_dir_usable [] d Hdir Hm), kb_status_present.
    left; reflexivity. }
  assert (Hlisted : has_marker d = true -> In (dir_name d) (usable_kbs entries)).
  { intros Hm. unfold usable_kbs. apply in_map, filter_In.
    rewrite Hdir, Hm. auto. }
  split; [|split].
  - intros Hm. split; [auto|]. split; [|auto].
    intros [Habs|Habs]; [discriminate|].
    apply in_app_or in Habs as [Habs|Habs].
    + apply in_flat_map in Habs as (d' & Hin' & Hev).
      destruct (is_dir d') eqn:Hdir';
        [destruct (has_marker d') eqn:Hm'|].
      * rewrite (check_kb_dir_usable [] d' Hdir' Hm') in Hev.
        destruct Hev as [Hev|[]]. discriminate.
      * rewrite (check_kb_dir_empty [] d' Hdir' Hm') in Hev.
        destruct Hev as [Hev|[]]. injection Hev as Hev.
        apply app_inv_tail in Hev.
        assert (d' = d) by (eapply NoDup_map_inj; eassumption).
        congruence.
      * rewrite (check_kb_dir_file [] d' Hdir') in Hev. destruct Hev.
    + specialize (Hlisted Hm). destruct (usable_kbs entries); [easy|].
      destruct Habs.
  - intros Hr Hc Hn.
    assert (Hm : has_marker d = true)
      by (unfold has_marker; rewrite Hc; apply orb_true_r ||
          (rewrite orb_true_r; reflexivity)).
    specialize (Hfound Hm). unfold present_markers in Hfound.
    rewrite Hr, Hc, Hn in Hfound. exact Hfound.
  - intros Hm. split.
    + right. apply in_or_app. left. apply in_flat_map.
      exists d. split; [assumption|].
      rewrite (check_kb_dir_empty [] d Hdir Hm). left; reflexivity.
    + unfold usable_kbs. intros Habs.
      apply in_map_iff in Habs as (d' & Hname & Hin').
      apply filter_In in Hin' as [Hin' Hok].
      assert (d' = d) by (eapply NoDup_map_inj; eassumption).
      subst d'. rewrite Hdir, Hm in Hok. discriminate.
Qed.

Lemma kb_scan_reports_witness :
  exists tr kbs,
    check_existing_knowledge_bases
      (sample_world (Ok tt) (Ok []) (Ok sample_entries)
         (Ok {| answer := None |}))
    = (tr, Ok kbs)
    /\ In (Success (lit "notes: content_list")) tr
    /\ ~ In (Warning (lit "notes: 空知识库")) tr
    /\ In (lit "notes") kbs
    /\ In (Warning (lit "scratch: 空知识库")) tr
    /\ ~ In (lit "scratch") kbs.
Proof.
  destruct (kb_scan_reports
              (sample_world (Ok tt) (Ok []) (Ok sample_entries)
                 (Ok {| answer := None |}))
              sample_entries eq_refl eq_refl)
    as (tr & kbs & Hrun & Hall).
  { vm_compute. repeat constructor; simpl; intuition discriminate. }
  exists tr, kbs. split; [exact Hrun|].
  destruct (Hall notes_dir (or_introl eq_refl) eq_refl) as (Hn & _ & _).
  destruct (Hn eq_refl) as (Hfound & Hnot_empty & Hlisted).
  destruct (Hall scratch_dir (or_intror (or_introl eq_refl)) eq_refl)
    as (_ & _ & Hs).
  destruct (Hs eq_refl) as (Hempty & Hexcluded).
  repeat split; assumption.
Defined.

Example scan_sample :
  check_existing_knowledge_bases
    (sample_world (Ok tt) (Ok []) (Ok sample_entries) (Ok {| answer := None |}))
  = ([Header (lit "已有知识库检查");
      Success (lit "notes: content_list");
      Warning (lit "scratch: 空知识库")],
     Ok [lit "notes"]).
Proof. vm_compute. reflexivity. Qed.

(** ** check_pipelines *)

Lemma for_each_emit {A} (f : A -> event) (xs : list A) :
  for_each xs (fun x => emit (f x)) = (map f xs, Ok tt).
Proof.
  induction xs as [|x xs IH]; simpl; [reflexivity|].
  rewrite IH. reflexivity.
Qed.

Lemma dict_set_In {V} (d : dict V) k v k' v' :
  In (k', v') (dict_set d k v) -> (k' = k /\ v' = v) \/ In (k', v') d.
Proof.
  induction d as [|[k0 v0] d IH]; simpl.
  - intros [[= <- <-]|[]]. auto.
  - destruct (pystr_eqb k0 k) eqn:E.
    + apply pystr_eqb_eq in E. subst k0.
      intros [[= <- <-]|H]; auto.
    + intros [H|H]; [auto|]. destruct (IH H); auto.
Qed.

Lemma dict_get_set {V} (d : dict V) k v : dict_get (dict_set d k v) k = Some v.
Proof.
  induction d as [|[k0 v0] d IH]; simpl.
  - rewrite pystr_eqb_refl. reflexivity.
  - destruct (pystr_eqb k0 k) eqn:E; simpl; rewrite E; auto.
Qed.

Lemma steps_app tr1 tr2 : steps (tr1 ++ tr2) = steps tr1 ++ steps tr2.
Proof. apply omap_app. Qed.

Lemma steps_cons_none ev tr : step_of ev = None -> steps (ev :: tr) = steps tr.
Proof.
  intros H. unfold steps.
  change (omap step_of (ev :: tr))
    with (match step_of ev with
          | Some s => s :: omap step_of tr
          | None => omap step_of tr
          end).
  rewrite H. reflexivity.
Qed.

Lemma steps_cons_some ev s tr :
  step_of ev = Some s -> steps (ev :: tr) = s :: steps tr.
Proof.
  intros H. unfold steps.
  change (omap step_of (ev :: tr))
    with (match step_of ev with
          | Some s => s :: omap step_of tr
          | None => omap step_of tr
          end).
  rewrite H. reflexivity.
Qed.

Lemma steps_map_Info (l : list pystr) : steps (map Info l) = [].
Proof. induction l; [reflexivity | assumption]. Qed.

Lemma check_pipeline_built w results p pl :
  get_pipeline w (id p) = Ok pl ->
  check_pipeline w results p
  = (Print (NL ++ Colors.BOLD ++ lit "  [" ++ id p ++ lit "]" ++ Colors.END
            ++ lit " " ++ name p)
       :: Print (lit "    描述: " ++ description p)
       :: Success (lit "Pipeline 实例创建成功")
       :: map Info (match pl with
                    | Some comps => component_lines w comps
                    | None => []
                    end),
     Ok (dict_set results (id p) (lit "available"))).
Proof.
  intros Hget. unfold check_pipeline, print, print_success.
  rewrite (bind_ok _ _ [Print _] tt) by reflexivity.
  rewrite (bind_ok _ _ [Print _] tt) by reflexivity.
  rewrite Hget. unfold lift. cbn [bind app].
  destruct pl as [comps|].
  - unfold print_info. rewrite for_each_emit.
    cbn [bind try_except fst snd app ret]. rewrite app_nil_r. reflexivity.
  - reflexivity.
Qed.

Lemma check_pipeline_failed w results p e :
  get_pipeline w (id p) = Raise e ->
  check_pipeline w results p
  = ([Print (NL ++ Colors.BOLD ++ lit "  [" ++ id p ++ lit "]" ++ Colors.END
             ++ lit " " ++ name p);
      Print (lit "    描述: " ++ description p);
      Error (lit "Pipeline 创建失败: " ++ exn_msg e)],
     Ok (dict_set results (id p) (lit "error: " ++ exn_msg e))).
Proof.
  intros Hget. unfold check_pipeline, print.
  rewrite (bind_ok _ _ [Print _] tt) by reflexivity.
  rewrite (bind_ok _ _ [Print _] tt) by reflexivity.
  rewrite Hget. reflexivity.
Qed.

(** The loop keeps every stored value tied to the outcome of building the
    pipeline it is stored for, and prints an error line for each failure. *)
Lemma check_pipelines_loop_spec w pipelines results :
  (forall pid v, In (pid, v) results -> pipeline_entry w pid v) ->
  exists tr d,
    check_pipelines_loop w pipelines results = (tr, Ok d)
    /\ (forall pid v, In (pid, v) d ->
          pipeline_entry w pid v
          /\ (In (pid, v) results \/ exists p, In p pipelines /\ id p = pid))
    /\ (forall p e, In p pipelines -> get_pipeline w (id p) = Raise e ->
          In (Error (lit "Pipeline 创建失败: " ++ exn_msg e)) tr)
    /\ steps tr = [].
Proof.
  revert results. induction pipelines as [|p rest IH]; intros results Hinv.
  - exists [], results. simpl. repeat split; auto; easy.
  - cbn [check_pipelines_loop].
    destruct (get_pipeline w (id p)) as [pl|e] eqn:Hget.
    + rewrite (bind_ok _ _ _ _ (check_pipeline_built w results p pl Hget)).
      destruct (IH (dict_set results (id p) (lit "available")))
        as (tr2 & d & Hloop & Hd & Herr & Hst).
      { intros pid v Hin. apply dict_set_In in Hin as [[-> ->]|Hin]; auto.
        econstructor; eassumption. }
      rewrite Hloop. eexists _, d. cbn [fst snd].
      split; [reflexivity|]. split; [|split].
      * intros pid v Hin. destruct (Hd pid v Hin) as [He [Hold|(q & Hq & Hid)]].
        -- split; [assumption|].
           apply dict_set_In in Hold as [[-> ->]|Hold]; eauto using in_eq.
        -- split; [assumption|]. right. exists q. auto using in_cons.
      * intros q e [<-|Hq] Hfail; [congruence|].
        apply in_or_app. right. eauto.
      * rewrite steps_app, Hst, app_nil_r.
        cbn [steps omap step_of]. apply steps_map_Info.
    + rewrite (bind_ok _ _ _ _ (check_pipeline_failed w results p e Hget)).
      destruct (IH (dict_set results (id p) (lit "error: " ++ exn_msg e)))
        as (tr2 & d & Hloop & Hd & Herr & Hst).
      { intros pid v Hin. apply dict_set_In in Hin as [[-> ->]|Hin]; auto.
        econstructor; eassumption. }
      rewrite Hloop. eexists _, d. cbn [fst snd].
      split; [reflexivity|]. split; [|split].
      * intros pid v Hin. destruct (Hd pid v Hin) as [He [Hold|(q & Hq & Hid)]].
        -- split; [assumption|].
           apply dict_set_In in Hold as [[-> ->]|Hold]; eauto using in_eq.
        -- split; [assumption|]. right. exists q. auto using in_cons.
      * intros q e' [<-|Hq] Hfail.
        -- rewrite Hget in Hfail. injection Hfail as <-.
           right; right; left; reflexivity.
        -- right; right; right. eauto.
      * rewrite steps_app, Hst. reflexivity.
Qed.

Lemma check_pipelines_listed w pipelines :
  import_factory w = Ok tt -> list_pipelines w = Ok pipelines ->
  check_pipelines w
  = (Header (lit "Pipeline 可用性检查")
       :: Info (lit "已注册 " ++ str_of_nat (length pipelines)
                ++ lit " 个 pipeline" ++ NL)
       :: fst (check_pipelines_loop w pipelines []),
     snd (check_pipelines_loop w pipelines [])).
Proof.
  intros Himp Hls. unfold check_pipelines, print_header, print_info.
  rewrite (bind_ok _ _ [Header _] tt) by reflexivity.
  rewrite (bind_ok (lift (import_factory w)) _ [] tt)
    by (rewrite Himp; reflexivity).
  rewrite (bind_ok (lift (list_pipelines w)) _ [] pipelines)
    by (rewrite Hls; reflexivity).
  rewrite (bind_ok _ _ [Info _] tt) by reflexivity.
  reflexivity.
Qed.



Example check_pipelines_sample :
  snd (check_pipelines
         (sample_world (Ok tt) (Ok sample_pipelines) (Ok [])
            (Ok {| answer := None |})))
  = Ok [ (lit "llamaindex", lit "available");
         (lit "raganything", lit "error: not initialised") ].
Proof. vm_compute. reflexivity. Qed.

(** ** The dependency and service checks *)

Lemma check_rag_anything_availability_spec w :
  check_rag_anything_availability w
  = (Header (lit "RAG-Anything 依赖检查")
       :: (if raganything_path_exists w
           then [Success (lit "RAG-Anything 路径存在: " ++ raganything_path w)]
           else [Warning (lit "RAG-Anything 路径不存在: "
                          ++ raganything_path w);
                 Info (lit "这会影响 raganything, lightrag, academic pipeline")])
       ++ match import_raganything w with
          | Ok _ => [Success (lit "可以导入 raganything 库")]
          | Raise e =>
              match exn_class e with
              | ImportError =>
                  [Error (lit "无法导入 raganything: " ++ exn_msg e)]
              | OtherException => []
              end
          end,
     import_result (import_raganything w)).
Proof.
  unfold check_rag_anything_availability.
  destruct (raganything_path_exists w);
    destruct (import_raganything w) as [[]|[[] msg]]; reflexivity.
Qed.

Lemma check_lightrag_availability_spec w :
  check_lightrag_availability w
  = (Header (lit "LightRAG 依赖检查")
       :: match import_lightrag w with
          | Ok _ => [Success (lit "可以导入 lightrag 库")]
          | Raise e =>
              match exn_class e with
              | ImportError => [Error (lit "无法导入 lightrag: " ++ exn_msg e)]
              | OtherException => []
              end
          end,
     import_result (import_lightrag w)).
Proof.
  unfold check_lightrag_availability.
  destruct (import_lightrag w) as [[]|[[] msg]]; reflexivity.
Qed.

Lemma check_embedding_service_spec w :
  check_embedding_service w
  = match get_embedding_client w with
    | Raise e =>
        ([Header (lit "Embedding 服务检查");
          Error (lit "Embedding 服务错误: " ++ exn_msg e)], Ok false)
    | Ok c =>
        match config_model c with
        | Some (Raise e) =>
            ([Header (lit "Embedding 服务检查");
              Success (lit "Embedding 客户端可用");
              Error (lit "Embedding 服务错误: " ++ exn_msg e)], Ok false)
        | Some (Ok m) =>
            ([Header (lit "Embedding 服务检查");
              Success (lit "Embedding 客户端可用");
              Info (lit "Model: " ++ m)], Ok true)
        | None =>
            ([Header (lit "Embedding 服务检查");
              Success (lit "Embedding 客户端可用");
              Info (lit "Model: " ++ lit "unknown")], Ok true)
        end
    end.
Proof.
  unfold check_embedding_service.
  destruct (get_embedding_client w) as [[[[m|e]|]]|e]; reflexivity.
Qed.

Lemma check_llm_service_spec w :
  check_llm_service w
  = match get_llm_config w with
    | Raise e =>
        ([Header (lit "LLM 服务检查");
          Error (lit "LLM 服务错误: " ++ exn_msg e)], Ok false)
    | Ok config =>
        ([Header (lit "LLM 服务检查");
          Success (lit "LLM 配置可用");
          Info (lit "Model: " ++ model config);
          Info (if 50 <? length (base_url config)
                then lit "Base URL: " ++ take 50 (base_url config) ++ lit "..."
                else lit "Base URL: " ++ base_url config)], Ok true)
    end.
Proof.
  unfold check_llm_service.
  destruct (get_llm_config w) as [config|e]; reflexivity.
Qed.

(** Both service checks return whatever the factories do. *)
Lemma check_embedding_service_returns w :
  exists tr b,
    check_embedding_service w = (tr, Ok b)
    /\ steps tr = [Stage (lit "Embedding 服务检查")]
    /\ (forall e, get_embedding_client w = Raise e ->
          b = false /\ In (Error (lit "Embedding 服务错误: " ++ exn_msg e)) tr).
Proof.
  rewrite check_embedding_service_spec.
  destruct (get_embedding_client w) as [[[[m|e]|]]|e];
    eexists _, _; (split; [reflexivity|]); (split; [reflexivity|]);
    intros e' [= <-] || intros e' [=].
  split; [reflexivity | right; left; reflexivity].
Qed.

Lemma check_llm_service_returns w :
  exists tr b,
    check_llm_service w = (tr, Ok b)
    /\ steps tr = [Stage (lit "LLM 服务检查")]
    /\ (forall e, get_llm_config w = Raise e ->
          b = false /\ In (Error (lit "LLM 服务错误: " ++ exn_msg e)) tr).
Proof.
  rewrite check_llm_service_spec.
  destruct (get_llm_config w) as [config|e];
    eexists _, _; (split; [reflexivity|]); (split; [reflexivity|]);
    intros e' [= <-] || intros e' [=].
  split; [reflexivity | right; left; reflexivity].
Qed.

Lemma check_rag_anything_availability_steps w :
  steps (fst (check_rag_anything_availability w))
  = [Stage (lit "RAG-Anything 依赖检查")].
Proof.
  rewrite check_rag_anything_availability_spec. cbn [fst].
  destruct (raganything_path_exists w);
    destruct (import_raganything w) as [[]|[[] msg]]; reflexivity.
Qed.

Lemma check_lightrag_availability_steps w :
  steps (fst (check_lightrag_availability w))
  = [Stage (lit "LightRAG 依赖检查")].
Proof.
  rewrite check_lightrag_availability_spec. cbn [fst].
  destruct (import_lightrag w) as [[]|[[] msg]]; reflexivity.
Qed.

Lemma check_environment_steps environ :
  steps (fst (check_environment environ)) = [Stage (lit "环境变量检查")].
Proof.
  rewrite check_environment_trace. cbn [fst].
  change (steps (?e :: ?l)) with (steps [e] ++ steps l).
  assert (H : forall vds,
             steps (flat_map (fun vd => fst (check_env_var environ vd)) vds)
             = []).
  { induction vds as [|[var dflt] vds IH]; [reflexivity|].
    cbn [flat_map]. rewrite steps_app, IH, app_nil_r.
    unfold check_env_var.
    destruct (getenv environ var dflt) as [[|c s]|]; try reflexivity.
    destruct (contains _ _ && _); reflexivity. }
  rewrite H. reflexivity.
Qed.

Lemma check_pipelines_steps w :
  steps (fst (check_pipelines w)) = [Stage (lit "Pipeline 可用性检查")].
Proof.
  destruct (import_factory w) as [[]|e] eqn:Himp;
    [destruct (list_pipelines w) as [ps|e] eqn:Hls|].
  - rewrite (check_pipelines_listed w ps Himp Hls).
    destruct (check_pipelines_loop_spec w ps [])
      as (tr & d & -> & _ & _ & Hst); [easy|].
    cbn [fst]. change (steps (?a :: ?b :: ?l)) with (steps [a; b] ++ steps l).
    rewrite Hst. reflexivity.
  - unfold check_pipelines. rewrite Himp, Hls. reflexivity.
  - unfold check_pipelines. rewrite Himp. reflexivity.
Qed.

Lemma check_existing_knowledge_bases_steps w :
  steps (fst (check_existing_knowledge_bases w))
  = [Stage (lit "已有知识库检查")].
Proof.
  destruct (kb_base_exists w) eqn:Hex;
    [destruct (kb_base_iterdir w) as [entries|e] eqn:Hls|].
  - rewrite (check_existing_knowledge_bases_listed w entries Hex Hls).
    cbn [fst]. change (steps (?a :: ?l)) with (steps [a] ++ steps l).
    rewrite steps_app.
    assert (H : steps (flat_map (fun d => fst (check_kb_dir [] d)) entries)
                = []).
    { clear. induction entries as [|d entries IH]; [reflexivity|].
      cbn [flat_map]. rewrite steps_app, IH, app_nil_r.
      unfold check_kb_dir. destruct (is_dir d); [|reflexivity].
      destruct (kb_status d); reflexivity. }
    rewrite H. destruct (usable_kbs entries); reflexivity.
  - unfold check_existing_knowledge_bases. rewrite Hex, Hls. reflexivity.
  - rewrite (check_existing_knowledge_bases_missing w Hex). reflexivity.
Qed.

(** ** print_summary and print_recommendations *)

Lemma summary_line_emits w kv :
  exists ev, summary_line w kv = emit ev /\ step_of ev = None.
Proof.
  destruct kv as [key [[]|s|l|d]]; cbn [summary_line];
    try (eexists; split; reflexivity).
  destruct (pystr_eqb s (lit "available"));
    [|destruct (startswith s (lit "error"))];
    eexists; split; reflexivity.
Qed.

Lemma print_summary_returns w results :
  exists tr,
    print_summary w results = (tr, Ok tt)
    /\ steps tr = [Stage (lit "诊断总结")]
    /\ (forall key, In (key, VBool false) results ->
          In (Error (key ++ lit ": 不可用")) tr).
Proof.
  unfold print_summary, print_header.
  rewrite (bind_ok _ _ [Header _] tt) by reflexivity.
  rewrite for_each_ok.
  2: { intros kv _. destruct (summary_line_emits w kv) as (ev & -> & _).
       reflexivity. }
  eexists. split; [reflexivity|]. split.
  - cbn [fst snd app]. change (steps (?a :: ?l)) with (steps [a] ++ steps l).
    induction results as [|kv results IH]; [reflexivity|].
    cbn [flat_map]. rewrite steps_app.
    destruct (summary_line_emits w kv) as (ev & -> & Hev).
    cbn [fst emit]. rewrite (steps_cons_none ev [] Hev). exact IH.
  - intros key Hin. right. apply in_flat_map.
    exists (key, VBool false). split; [assumption|]. left; reflexivity.
Qed.

Lemma print_numbered_spec i recommendations :
  exists tr,
    print_numbered i recommendations = (tr, Ok tt) /\ steps tr = [].
Proof.
  revert i. induction recommendations as [|r rest IH]; intros i.
  - exists []. split; reflexivity.
  - destruct (IH (S i)) as (tr & Hrun & Hst).
    cbn [print_numbered]. unfold print.
    rewrite (bind_ok _ _ [Print _] tt) by reflexivity.
    rewrite Hrun. eexists. split; [reflexivity|]. exact Hst.
Qed.

(** The recommendations are printed whenever the [pipelines] entry is a
    dict, as it is in [main]. *)
Lemma print_recommendations_returns results d :
  dict_get results (lit "pipelines") = Some (VDict d) ->
  exists tr,
    print_recommendations results = (tr, Ok tt)
    /\ steps tr = [Stage (lit "建议")].
Proof.
  intros Hd. unfold print_recommendations, print_header, llamaindex_available.
  rewrite (bind_ok _ _ [Header _] tt) by reflexivity.
  rewrite Hd. unfold ret at 1. cbn [bind app].
  set (recs := _ ++ _ ++ _). clearbody recs.
  set (avail := match dict_get d _ with Some _ => _ | None => _ end).
  clearbody avail.
  assert (Hrecs : exists tr,
            match recs with
            | [] => print_success (lit "所有服务正常运行!")
            | _ :: _ => print_numbered 1 recs
            end = (tr, Ok tt) /\ steps tr = []).
  { destruct recs as [|r recs]; [eexists; split; reflexivity|].
    apply print_numbered_spec. }
  destruct Hrecs as (tr & Hrun & Hst).
  destruct avail; cbn [bind print_success emit ret app];
    rewrite Hrun; cbn [fst snd app]; eexists; (split; [reflexivity|]);
    rewrite (steps_cons_some (Header _) _ _ eq_refl);
    rewrite ?steps_cons_none by reflexivity; rewrite Hst; reflexivity.
Qed.

(** Without a dict under [pipelines] the lookup of [llamaindex] raises. *)
Example print_recommendations_attribute_error :
  snd (print_recommendations [(lit "pipelines", VList [])])
  = Raise (attribute_error "list").
Proof. vm_compute. reflexivity. Qed.

(** ** test_pipeline_search *)

Lemma test_pipeline_search_given w pipeline_id kb :
  import_rag_tool w = Ok tt -> import_factory w = Ok tt ->
  test_pipeline_search w pipeline_id (Some kb)
  = (Print (NL ++ lit "  测试 " ++ pipeline_id ++ lit " 搜索功能...")
       :: RagSearch search_query kb (lit "naive") pipeline_id
       :: match rag_search w search_query kb (lit "naive") pipeline_id with
          | Ok result =>
              let answer_len := length (default (lit "") (answer result)) in
              if 0 <? answer_len
              then [Success (lit "搜索成功，返回 " ++ str_of_nat answer_len
                             ++ lit " 字符")]
              else [Warning (lit "搜索返回空结果")]
          | Raise e => [Error (lit "搜索失败: " ++ exn_msg e)]
          end,
     Ok match rag_search w search_query kb (lit "naive") pipeline_id with
        | Ok result => 0 <? length (default (lit "") (answer result))
        | Raise _ => false
        end).
Proof.
  intros Htool Hfac. unfold test_pipeline_search.
  rewrite Htool, Hfac, !lift_ok, !bind_ret. unfold print.
  rewrite (bind_ok _ _ [Print _] tt) by reflexivity.
  cbv beta. rewrite ?bind_ret.
  destruct (rag_search w search_query kb (lit "naive") pipeline_id)
    as [result|e]; [|reflexivity].
  rewrite lift_ok. unfold emit.
  rewrite (bind_ok _ _ [RagSearch _ _ _ _] tt) by reflexivity.
  cbv beta. rewrite ?bind_ret.
  destruct (0 <? length (default (lit "") (answer result))); reflexivity.
Qed.

Lemma test_pipeline_search_steps w pipeline_id kb :
  steps (fst (test_pipeline_search w pipeline_id (Some kb)))
  = match import_rag_tool w, import_factory w with
    | Ok _, Ok _ => [LiveSearch search_query kb (lit "naive") pipeline_id]
    | _, _ => []
    end.
Proof.
  destruct (import_rag_tool w) as [[]|e] eqn:Htool;
    [destruct (import_factory w) as [[]|e] eqn:Hfac|].
  - rewrite (test_pipeline_search_given w pipeline_id kb Htool Hfac).
    cbn [fst]. destruct (rag_search _ _ _ _ _) as [result|e];
      [cbv zeta; destruct (0 <? _)|]; reflexivity.
  - unfold test_pipeline_search. rewrite Htool, Hfac. reflexivity.
  - unfold test_pipeline_search. rewrite Htool. reflexivity.
Qed.

(** ** main *)

Ltac run_ok H := rewrite (bind_ok _ _ _ _ H); cbv beta zeta; cbn [fst snd].
Ltac run_raise H := rewrite (bind_raise _ _ _ _ H); cbn [fst snd].

Lemma results_built be bl br bli d kbs :
  dict_set
    (dict_set
       (dict_set
          (dict_set
             (dict_set (dict_set [] (lit "embedding_service") (VBool be))
                (lit "llm_service") (VBool bl))
             (lit "rag_anything_lib") (VBool br))
          (lit "lightrag_lib") (VBool bli))
       (lit "pipelines") (VDict d))
    (lit "knowledge_bases") (VList kbs)
  = main_results be bl br bli d kbs.
Proof. vm_compute. reflexivity. Qed.

Lemma main_results_rag_lib be bl br bli d kbs :
  negb (missing (main_results be bl br bli d kbs) (lit "rag_anything_lib"))
  = br.
Proof. destruct br; vm_compute; reflexivity. Qed.

Lemma main_results_pipelines be bl br bli d kbs :
  dict_get (main_results be bl br bli d kbs) (lit "pipelines")
  = Some (VDict d).
Proof. vm_compute. reflexivity. Qed.

Lemma search_tests_eq w results br kbs :
  negb (missing results (lit "rag_anything_lib")) = br ->
  match kbs with
  | first_kb :: _ =>
      if negb (missing results (lit "rag_anything_lib")) then
        print_header (lit "搜索功能测试") ;;;
        for_each [lit "raganything"]
          (fun pipeline_id =>
             test_pipeline_search w pipeline_id (Some first_kb) ;;; ret tt)
      else ret tt
  | [] => ret tt
  end = search_tests w br kbs.
Proof.
  intros ->. unfold search_tests.
  destruct kbs as [|first_kb rest]; [reflexivity|].
  destruct br; [|reflexivity].
  unfold print_header. rewrite (bind_ok _ _ [Header _] tt) by reflexivity.
  cbn [for_each app].
  destruct (test_pipeline_search w (lit "raganything") (Some first_kb))
    as [t [b|e]]; cbn; rewrite ?app_nil_r; reflexivity.
Qed.

(** The run of [main] when the six checks return: every check contributes
    its lines in order, then the summary, the recommendations and the
    search test. *)
Lemma main_checks_return w te be tl bl tr br tli bli tp d tk kbs :
  check_embedding_service w = (te, Ok be) ->
  check_llm_service w = (tl, Ok bl) ->
  check_rag_anything_availability w = (tr, Ok br) ->
  check_lightrag_availability w = (tli, Ok bli) ->
  check_pipelines w = (tp, Ok d) ->
  check_existing_knowledge_bases w = (tk, Ok kbs) ->
  exists ts trec,
    print_summary w (main_results be bl br bli d kbs) = (ts, Ok tt)
    /\ print_recommendations (main_results be bl br bli d kbs) = (trec, Ok tt)
    /\ steps ts = [Stage (lit "诊断总结")]
    /\ steps trec = [Stage (lit "建议")]
    /\ main w
       = (banner w ++ fst (check_environment (environ w)) ++ te ++ tl ++ tr
            ++ tli ++ tp ++ tk ++ ts ++ trec ++ fst (search_tests w br kbs),
          snd (search_tests w br kbs)).
Proof.
  intros He Hl Hr Hli Hp Hk.
  destruct (print_summary_returns w (main_results be bl br bli d kbs))
    as (ts & Hs & Hsteps & _).
  destruct (print_recommendations_returns (main_results be bl br bli d kbs) d
              (main_results_pipelines _ _ _ _ _ _))
    as (trec & Hrec & Hrsteps).
  exists ts, trec. repeat (split; [assumption|]).
  unfold main, print.
  rewrite (bind_ok _ _ [Print _] tt) by reflexivity. cbv beta.
  rewrite (bind_ok _ _ [Print _] tt) by reflexivity. cbv beta zeta.
  run_ok (check_environment_trace (environ w)).
  run_ok He. run_ok Hl. run_ok Hr. run_ok Hli. run_ok Hp. run_ok Hk.
  rewrite results_built.
  run_ok Hs. run_ok Hrec.
  rewrite (search_tests_eq w _ br kbs (main_results_rag_lib _ _ _ _ _ _)).
  rewrite check_environment_trace. cbn [fst]. reflexivity.
Qed.

(** Every run of [main]: the two service checks always return; an
    exception that leaves one of the four later checks ends the run there;
    otherwise the summary, the recommendations and the search test follow. *)
Lemma main_cases w :
  exists te be tl bl,
    check_embedding_service w = (te, Ok be)
    /\ check_llm_service w = (tl, Ok bl)
    /\ let t0 :=
         banner w ++ fst (check_environment (environ w)) ++ te ++ tl in
       match check_rag_anything_availability w with
       | (tr, Raise e) => main w = (t0 ++ tr, Raise e)
       | (tr, Ok br) =>
         match check_lightrag_availability w with
         | (tli, Raise e) => main w = (t0 ++ tr ++ tli, Raise e)
         | (tli, Ok bli) =>
           match check_pipelines w with
           | (tp, Raise e) => main w = (t0 ++ tr ++ tli ++ tp, Raise e)
           | (tp, Ok d) =>
             match check_existing_knowledge_bases w with
             | (tk, Raise e) =>
                 main w = (t0 ++ tr ++ tli ++ tp ++ tk, Raise e)
             | (tk, Ok kbs) =>
                 exists ts trec,
                   print_summary w (main_results be bl br bli d kbs)
                   = (ts, Ok tt)
                   /\ print_recommendations (main_results be bl br bli d kbs)
                      = (trec, Ok tt)
                   /\ steps ts = [Stage (lit "诊断总结")]
                   /\ steps trec = [Stage (lit "建议")]
                   /\ main w
                      = (t0 ++ tr ++ tli ++ tp ++ tk ++ ts ++ trec
                            ++ fst (search_tests w br kbs),
                         snd (search_tests w br kbs))
             end
           end
         end
       end.
Proof.
  destruct (check_embedding_service_returns w) as (te & be & He & _).
  destruct (check_llm_service_returns w) as (tl & bl & Hl & _).
  exists te, be, tl, bl. split; [assumption|]. split; [assumption|].
  cbv zeta.
  assert (Hstart : forall k : bool -> bool -> M unit,
            (print (NL ++ Colors.BOLD ++ lit "DeepTutor RAG Pipeline 诊断工具"
                    ++ Colors.END) ;;;
             print (lit "项目根目录: " ++ project_root w ++ NL) ;;;
             check_environment (environ w) ;;;
             b <- check_embedding_service w ;;
             b' <- check_llm_service w ;;
             k b b')
            = ((banner w ++ fst (check_environment (environ w)) ++ te ++ tl)
                 ++ fst (k be bl), snd (k be bl))).
  { intros k. unfold print.
    rewrite (bind_ok _ _ [Print _] tt) by reflexivity. cbv beta.
    rewrite (bind_ok _ _ [Print _] tt) by reflexivity. cbv beta.
    run_ok (check_environment_trace (environ w)).
    run_ok He. run_ok Hl.
    rewrite check_environment_trace. cbn [fst]. unfold banner.
    rewrite <- !app_assoc. reflexivity. }
  destruct (check_rag_anything_availability w) as [tr [br|e]] eqn:Hr.
  2: { unfold main. cbv zeta.
       rewrite (Hstart (fun _ _ => bind (check_rag_anything_availability w) _)).
       run_raise Hr. reflexivity. }
  destruct (check_lightrag_availability w) as [tli [bli|e]] eqn:Hli.
  2: { unfold main. cbv zeta.
       rewrite (Hstart (fun _ _ => bind (check_rag_anything_availability w) _)).
       run_ok Hr. run_raise Hli. rewrite <- ?app_assoc. reflexivity. }
  destruct (check_pipelines w) as [tp [d|e]] eqn:Hp.
  2: { unfold main. cbv zeta.
       rewrite (Hstart (fun _ _ => bind (check_rag_anything_availability w) _)).
       run_ok Hr. run_ok Hli. run_raise Hp.
       rewrite <- ?app_assoc. reflexivity. }
  destruct (check_existing_knowledge_bases w) as [tk [kbs|e]] eqn:Hk.
  2: { unfold main. cbv zeta.
       rewrite (Hstart (fun _ _ => bind (check_rag_anything_availability w) _)).
       run_ok Hr. run_ok Hli. run_ok Hp. run_raise Hk.
       rewrite <- ?app_assoc. reflexivity. }
  destruct (main_checks_return w _ _ _ _ _ _ _ _ _ _ _ _ He Hl Hr Hli Hp Hk)
    as (ts & trec & Hs & Hrec & Hss & Hrs & Hmain).
  exists ts, trec. repeat (split; [assumption|]).
  rewrite Hmain, <- ?app_assoc. reflexivity.
Qed.

Lemma check_embedding_service_steps w :
  steps (fst (check_embedding_service w)) = [Stage (lit "Embedding 服务检查")].
Proof.
  destruct (check_embedding_service_returns w) as (tr & b & -> & H & _).
  exact H.
Qed.

Lemma check_llm_service_steps w :
  steps (fst (check_llm_service w)) = [Stage (lit "LLM 服务检查")].
Proof.
  destruct (check_llm_service_returns w) as (tr & b & -> & H & _).
  exact H.
Qed.

(** A run in which the four later checks return reaches the search test. *)
Lemma main_reaches_search w br bli d kbs :
  snd (check_rag_anything_availability w) = Ok br ->
  snd (check_lightrag_availability w) = Ok bli ->
  snd (check_pipelines w) = Ok d ->
  snd (check_existing_knowledge_bases w) = Ok kbs ->
  exists be bl,
    snd (check_embedding_service w) = Ok be
    /\ snd (check_llm_service w) = Ok bl
    /\ steps (checks_trace w be bl br bli d kbs)
       = map Stage (take 9 check_order)
    /\ main w
       = (checks_trace w be bl br bli d kbs ++ fst (search_tests w br kbs),
          snd (search_tests w br kbs)).
Proof.
  intros Hr Hli Hp Hk.
  destruct (main_cases w) as (te & be & tl & bl & He & Hl & Hmain).
  cbv zeta in Hmain.
  pose proof (check_rag_anything_availability_steps w) as Sr.
  pose proof (check_lightrag_availability_steps w) as Sli.
  pose proof (check_pipelines_steps w) as Sp.
  pose proof (check_existing_knowledge_bases_steps w) as Sk.
  pose proof (check_embedding_service_steps w) as Se.
  pose proof (check_llm_service_steps w) as Sl.
  pose proof (check_environment_steps (environ w)) as Senv.
  exists be, bl. unfold checks_trace.
  rewrite He, Hl in *.
  destruct (check_rag_anything_availability w) as [tr [br'|e]];
    cbn [fst snd] in *; [|discriminate].
  destruct (check_lightrag_availability w) as [tli [bli'|e]];
    cbn [fst snd] in *; [|discriminate].
  destruct (check_pipelines w) as [tp [d'|e]];
    cbn [fst snd] in *; [|discriminate].
  destruct (check_existing_knowledge_bases w) as [tk [kbs'|e]];
    cbn [fst snd] in *; [|discriminate].
  injection Hr as ->. injection Hli as ->. injection Hp as ->.
  injection Hk as ->.
  destruct Hmain as (ts & trec & Hs & Hrec & Sts & Strec & Hmain).
  rewrite Hs, Hrec. cbn [fst snd].
  split; [reflexivity|]. split; [reflexivity|]. split.
  - rewrite !steps_app, Senv, Se, Sl, Sr, Sli, Sp, Sk, Sts, Strec.
    reflexivity.
  - rewrite Hmain, <- !app_assoc. reflexivity.
Qed.

Lemma test_pipeline_search_no_tool w pipeline_id kb_name e :
  import_rag_tool w = Raise e ->
  test_pipeline_search w pipeline_id kb_name = ([], Raise e).
Proof. intros H. unfold test_pipeline_search. rewrite H. reflexivity. Qed.

Lemma check_pipelines_returned w d :
  snd (check_pipelines w) = Ok d ->
  import_factory w = Ok tt /\ exists pipelines, list_pipelines w = Ok pipelines.
Proof.
  unfold check_pipelines.
  destruct (import_factory w) as [[]|e]; [|discriminate].
  destruct (list_pipelines w) as [ps|e]; [|discriminate].
  eauto.
Qed.

(** C5: when the search returns and the answer is the empty string, the
    search test prints a warning and no error line and returns False, and
    the run that made the call completes normally. *)
Theorem empty_answer_is_warning w pipeline_id kb result :
  import_rag_tool w = Ok tt ->
  import_factory w = Ok tt ->
  rag_search w search_query kb (lit "naive") pipeline_id = Ok result ->
  answer result = @Some pystr [] ->
  test_pipeline_search w pipeline_id (Some kb)
  = ([Print (NL ++ lit "  测试 " ++ pipeline_id ++ lit " 搜索功能...");
      RagSearch search_query kb (lit "naive") pipeline_id;
      Warning (lit "搜索返回空结果")], Ok false)
  /\ (forall bli d rest,
        pipeline_id = lit "raganything" ->
        snd (check_rag_anything_availability w) = Ok true ->
        snd (check_lightrag_availability w) = Ok bli ->
        snd (check_pipelines w) = Ok d ->
        snd (check_existing_knowledge_bases w) = Ok (kb :: rest) ->
        snd (main w) = Ok tt
        /\ exit_status (main w) = 0
        /\ exists before,
             fst (main w)
             = before
               ++ [Header (lit "搜索功能测试");
                   Print (NL ++ lit "  测试 " ++ pipeline_id
                          ++ lit " 搜索功能...");
                   RagSearch search_query kb (lit "naive") pipeline_id;
                   Warning (lit "搜索返回空结果")]).
Proof.
  intros Htool Hfac Hsearch Hanswer.
  assert (Htest : test_pipeline_search w pipeline_id (Some kb)
                  = ([Print (NL ++ lit "  测试 " ++ pipeline_id
                             ++ lit " 搜索功能...");
                      RagSearch search_query kb (lit "naive") pipeline_id;
                      Warning (lit "搜索返回空结果")], Ok false)).
  { rewrite (test_pipeline_search_given w pipeline_id kb Htool Hfac).
    rewrite Hsearch, Hanswer. reflexivity. }
  split; [exact Htest|].
  intros bli d rest -> Hr Hli Hp Hk.
  destruct (main_reaches_search w true bli d (kb :: rest) Hr Hli Hp Hk)
    as (be & bl & _ & _ & _ & Hmain).
  unfold search_tests in Hmain. rewrite Htest in Hmain. cbn [fst snd] in Hmain.
  unfold exit_status. rewrite Hmain. cbn [fst snd].
  split; [reflexivity|]. split; [reflexivity|]. eexists. reflexivity.
Qed.

Lemma sample_world_checks factory listing found :
  snd (check_rag_anything_availability
         (sample_world (Ok tt) (Ok sample_pipelines) listing found)) = Ok true
  /\ snd (check_lightrag_availability
            (sample_world factory (Ok sample_pipelines) listing found))
     = Ok false
  /\ snd (check_pipelines
            (sample_world (Ok tt) (Ok sample_pipelines) listing found))
     = Ok [ (lit "llamaindex", lit "available");
            (lit "raganything", lit "error: not initialised") ]
  /\ snd (check_existing_knowledge_bases
            (sample_world factory (Ok sample_pipelines) (Ok sample_entries)
               found))
     = Ok [lit "notes"].
Proof. repeat split; vm_compute; reflexivity. Qed.

Lemma empty_answer_is_warning_witness :
  snd (main empty_answer_world) = Ok tt
  /\ exit_status (main empty_answer_world) = 0
  /\ exists before,
       fst (main empty_answer_world)
       = before
         ++ [Header (lit "搜索功能测试");
             Print (NL ++ lit "  测试 " ++ lit "raganything"
                    ++ lit " 搜索功能...");
             RagSearch search_query (lit "notes") (lit "naive")
               (lit "raganything");
             Warning (lit "搜索返回空结果")].
Proof.
  destruct (sample_world_checks (Ok tt) (Ok sample_entries)
              (Ok {| answer := Some (lit "") |}))
    as (Hr & Hli & Hp & Hk).
  exact (proj2 (empty_answer_is_warning empty_answer_world (lit "raganything")
                  (lit "notes") {| answer := Some (lit "") |}
                  eq_refl eq_refl eq_refl eq_refl)
           false _ [] eq_refl Hr Hli Hp Hk).
Defined.

(** C6: the live search is attempted exactly when the scan found a
    knowledge base and the RAG-Anything library check succeeded; it then
    uses the first knowledge base found, sends one search request with the
    fixed query, and reports success exactly when the answer is not
    empty. *)
Theorem live_search_condition w br bli d kbs :
  snd (check_rag_anything_availability w) = Ok br ->
  snd (check_lightrag_availability w) = Ok bli ->
  snd (check_pipelines w) = Ok d ->
  snd (check_existing_knowledge_bases w) = Ok kbs ->
  import_rag_tool w = Ok tt ->
  steps (fst (main w))
  = map Stage (take 9 check_order)
    ++ match kbs with
       | first_kb :: _ =>
           if br
           then [Stage (lit "搜索功能测试");
                 LiveSearch (lit "What is the main topic?") first_kb
                   (lit "naive") (lit "raganything")]
           else []
       | [] => []
       end
  /\ forall first_kb rest, kbs = first_kb :: rest -> br = true ->
       let nonempty_answer :=
         exists result,
           rag_search w (lit "What is the main topic?") first_kb (lit "naive")
             (lit "raganything") = Ok result
           /\ default (lit "") (answer result) <> [] in
       exists before verdict,
         fst (main w) = before ++ [verdict]
         /\ snd (main w) = Ok tt
         /\ ((exists text, verdict = Success text) <-> nonempty_answer)
         /\ (snd (test_pipeline_search w (lit "raganything") (Some first_kb))
             = Ok true <-> nonempty_answer).
Proof.
  intros Hr Hli Hp Hk Htool.
  destruct (check_pipelines_returned w d Hp) as [Hfac _].
  destruct (main_reaches_search w br bli d kbs Hr Hli Hp Hk)
    as (be & bl & _ & _ & Hsteps & Hmain).
  split.
  - rewrite Hmain. cbn [fst]. rewrite steps_app, Hsteps. f_equal.
    unfold search_tests. destruct kbs as [|first_kb rest]; [reflexivity|].
    destruct br; [|reflexivity]. cbn [fst].
    rewrite (steps_cons_some (Header _) _ _ eq_refl).
    rewrite test_pipeline_search_steps, Htool, Hfac. reflexivity.
  - intros first_kb rest -> -> nonempty_answer.
    unfold search_tests in Hmain.
    pose proof (test_pipeline_search_given w (lit "raganything") first_kb
                  Htool Hfac) as Htest.
    fold search_query in nonempty_answer. subst nonempty_answer.
    destruct (rag_search w search_query first_kb (lit "naive")
                (lit "raganything")) as [result|e] eqn:Hsearch.
    + cbv zeta in Htest.
      destruct (Nat.ltb_spec 0 (length (default (lit "") (answer result))))
        as [Hlen|Hlen].
      * rewrite Htest in Hmain |- *. cbn [fst snd] in Hmain |- *.
        rewrite Hmain. cbn [fst snd].
        exists (checks_trace w be bl true bli d (first_kb :: rest)
                ++ [Header (lit "搜索功能测试");
                    Print (NL ++ lit "  测试 " ++ lit "raganything"
                           ++ lit " 搜索功能...");
                    RagSearch search_query first_kb (lit "naive")
                      (lit "raganything")]).
        eexists. split; [rewrite <- app_assoc; reflexivity|].
        split; [reflexivity|].
        assert (Hne : exists result0,
                  Ok result = Ok result0
                  /\ default (lit "") (answer result0) <> []).
        { exists result. split; [reflexivity|].
          destruct (default (lit "") (answer result)); simpl in Hlen;
            [lia | discriminate]. }
        split; split; eauto.
      * rewrite Htest in Hmain |- *. cbn [fst snd] in Hmain |- *.
        rewrite Hmain. cbn [fst snd].
        exists (checks_trace w be bl true bli d (first_kb :: rest)
                ++ [Header (lit "搜索功能测试");
                    Print (NL ++ lit "  测试 " ++ lit "raganything"
                           ++ lit " 搜索功能...");
                    RagSearch search_query first_kb (lit "naive")
                      (lit "raganything")]).
        eexists. split; [rewrite <- app_assoc; reflexivity|].
        split; [reflexivity|].
        assert (Hempty : ~ exists result0,
                  Ok result = Ok result0
                  /\ default (lit "") (answer result0) <> []).
        { intros (r & [= <-] & Hne). apply Hne.
          destruct (default (lit "") (answer result)); [reflexivity|].
          simpl in Hlen. lia. }
        split; split; try (intros H; contradiction).
        -- intros (text & H). discriminate.
        -- intros [=].
    + rewrite Htest in Hmain |- *. cbn [fst snd] in Hmain |- *.
      rewrite Hmain. cbn [fst snd].
      exists (checks_trace w be bl true bli d (first_kb :: rest)
              ++ [Header (lit "搜索功能测试");
                  Print (NL ++ lit "  测试 " ++ lit "raganything"
                         ++ lit " 搜索功能...");
                  RagSearch search_query first_kb (lit "naive")
                    (lit "raganything")]).
      eexists. split; [rewrite <- app_assoc; reflexivity|].
      split; [reflexivity|].
      split; split; try (intros (r & [=] & _)).
      * intros (text & H). discriminate.
      * intros [=].
Qed.

Lemma live_search_condition_witness :
  steps (fst (main answering_world))
  = map Stage (take 9 check_order)
    ++ [Stage (lit "搜索功能测试");
        LiveSearch (lit "What is the main topic?") (lit "notes")
          (lit "naive") (lit "raganything")].
Proof.
  destruct (sample_world_checks (Ok tt) (Ok sample_entries)
              (Ok {| answer := Some (lit "Graph theory.") |}))
    as (Hr & Hli & Hp & Hk).
  exact (proj1 (live_search_condition answering_world true false _
                  [lit "notes"] Hr Hli Hp Hk eq_refl)).
Defined.

Example main_answering_world_last :
  last (fst (main answering_world))
  = Some (Success (lit "搜索成功，返回 13 字符")).
Proof. vm_compute. reflexivity. Qed.

(** C8: in every run the checks execute in the fixed order (environment,
    embedding service, LLM service, the two library checks, pipelines,
    knowledge bases, summary, recommendations, then the single search test
    when it is run): the steps of a run are an initial segment of that
    order, complete up to the recommendations whenever [main] returns. *)
Theorem checks_run_in_fixed_order w :
  exists n kb,
    steps (fst (main w)) = take n (fixed_order kb)
    /\ match snd (main w) with
       | Ok _ => n = 9 \/ n = 11
       | Raise _ => 4 <= n <= 7 \/ n = 10
       end.
Proof.
  destruct (main_cases w) as (te & be & tl & bl & He & Hl & Hmain).
  cbv zeta in Hmain.
  pose proof (check_rag_anything_availability_steps w) as Sr.
  pose proof (check_lightrag_availability_steps w) as Sli.
  pose proof (check_pipelines_steps w) as Sp.
  pose proof (check_existing_knowledge_bases_steps w) as Sk.
  pose proof (check_embedding_service_steps w) as Se.
  pose proof (check_llm_service_steps w) as Sl.
  pose proof (check_environment_steps (environ w)) as Senv.
  rewrite He in Se. rewrite Hl in Sl. cbn [fst] in Se, Sl.
  assert (S0 : steps (banner w ++ fst (check_environment (environ w))
                      ++ te ++ tl)
               = map Stage (take 3 check_order)).
  { rewrite !steps_app, Senv, Se, Sl. reflexivity. }
  destruct (check_rag_anything_availability w) as [tr [br|e]] eqn:Hr;
    cbn [fst] in Sr.
  2: { exists 4, []. rewrite Hmain. cbn [fst snd].
       rewrite steps_app, S0, Sr. split; [reflexivity | lia]. }
  destruct (check_lightrag_availability w) as [tli [bli|e]] eqn:Hli;
    cbn [fst] in Sli.
  2: { exists 5, []. rewrite Hmain. cbn [fst snd].
       rewrite steps_app, S0, !steps_app, Sr, Sli. split; [reflexivity | lia]. }
  destruct (check_pipelines w) as [tp [d|e]] eqn:Hp; cbn [fst] in Sp.
  2: { exists 6, []. rewrite Hmain. cbn [fst snd].
       rewrite steps_app, S0, !steps_app, Sr, Sli, Sp. split; [reflexivity | lia]. }
  destruct (check_existing_knowledge_bases w) as [tk [kbs|e]] eqn:Hk;
    cbn [fst] in Sk.
  2: { exists 7, []. rewrite Hmain. cbn [fst snd].
       rewrite steps_app, S0, !steps_app, Sr, Sli, Sp, Sk. split; [reflexivity | lia]. }
  destruct Hmain as (ts & trec & _ & _ & Sts & Strec & Hmain).
  assert (Hfac : import_factory w = Ok tt).
  { apply (check_pipelines_returned w d). rewrite Hp. reflexivity. }
  rewrite Hmain. cbn [fst snd].
  rewrite steps_app, S0, !steps_app, Sr, Sli, Sp, Sk, Sts, Strec.
  unfold search_tests.
  destruct kbs as [|first_kb rest];
    [exists 9, []; split; [reflexivity | left; reflexivity]|].
  destruct br; [|exists 9, []; split; [reflexivity | left; reflexivity]].
  cbn [fst snd]. rewrite (steps_cons_some (Header _) _ _ eq_refl).
  rewrite test_pipeline_search_steps, Hfac.
  destruct (import_rag_tool w) as [[]|e] eqn:Htool.
  - rewrite (test_pipeline_search_given w _ first_kb Htool Hfac).
    cbn [snd]. exists 11, first_kb. split; [reflexivity | right; reflexivity].
  - rewrite (test_pipeline_search_no_tool w _ _ e Htool). cbn [snd].
    exists 10, []. split; [reflexivity | right; reflexivity].
Qed.

Example run_order_sample :
  steps (fst (main answering_world)) = fixed_order (lit "notes")
  /\ steps (fst (main registry_down)) = take 6 (fixed_order (lit "notes")).
Proof. split; vm_compute; reflexivity. Qed.

Lemma find_existing_kb_has_rag_storage w kb tr :
  find_existing_kb w = (tr, Ok (Some kb)) ->
  exists entries d,
    kb_base_iterdir w = Ok entries /\ In d entries /\ dir_name d = kb
    /\ is_dir d = true /\ rag_storage_exists d = true.
Proof.
  unfold find_existing_kb.
  destruct (kb_base_exists w); [|discriminate].
  destruct (kb_base_iterdir w) as [entries|e]; [|discriminate].
  rewrite lift_ok, bind_ret.
  destruct (dirs_with_rag_storage entries) as [|kb' rest] eqn:E;
    [discriminate|].
  unfold print_info. rewrite (bind_ok _ _ [Info _] tt) by reflexivity.
  intros [= <- <-].
  assert (Hin : In kb' (dirs_with_rag_storage entries))
    by (rewrite E; left; reflexivity).
  unfold dirs_with_rag_storage in Hin.
  apply in_map_iff in Hin as (d & Hname & Hd).
  apply filter_In in Hd as [Hd Hok]. apply andb_true_iff in Hok as [? ?].
  exists entries, d. auto.
Qed.

(** C10: the search test filters on rag_storage only when it gets no
    knowledge-base name; a given name is used without looking at the
    directory, and [main] passes the first name of the scan, for which one
    marker of the three is enough: the search can be sent for a knowledge
    base without rag_storage. *)
Theorem given_kb_is_not_checked :
  (forall w pipeline_id kb exists_ listing,
     test_pipeline_search (with_kb_base exists_ listing w) pipeline_id
       (Some kb)
     = test_pipeline_search w pipeline_id (Some kb))
  /\ (forall w pipeline_id kb,
        import_rag_tool w = Ok tt -> import_factory w = Ok tt ->
        In (RagSearch search_query kb (lit "naive") pipeline_id)
           (fst (test_pipeline_search w pipeline_id (Some kb))))
  /\ (forall w kb tr,
        find_existing_kb w = (tr, Ok (Some kb)) ->
        exists entries d,
          kb_base_iterdir w = Ok entries /\ In d entries /\ dir_name d = kb
          /\ is_dir d = true /\ rag_storage_exists d = true)
  /\ (kb_base_iterdir answering_world = Ok sample_entries
      /\ In notes_dir sample_entries
      /\ rag_storage_exists notes_dir = false
      /\ In (RagSearch search_query (dir_name notes_dir) (lit "naive")
               (lit "raganything"))
            (fst (main answering_world))).
Proof.
  split; [|split; [|split]].
  - reflexivity.
  - intros w pipeline_id kb Htool Hfac.
    rewrite (test_pipeline_search_given w pipeline_id kb Htool Hfac).
    right; left; reflexivity.
  - exact find_existing_kb_has_rag_storage.
  - split; [reflexivity|]. split; [left; reflexivity|].
    split; [reflexivity|].
    destruct (sample_world_checks (Ok tt) (Ok sample_entries)
                (Ok {| answer := Some (lit "Graph theory.") |}))
      as (Hr & Hli & Hp & Hk).
    destruct (main_reaches_search answering_world true false _ _
                Hr Hli Hp Hk) as (be & bl & _ & _ & _ & ->).
    cbn [fst]. apply in_or_app. right.
    unfold search_tests. cbn [fst].
    rewrite (test_pipeline_search_given answering_world _ (lit "notes")
               eq_refl eq_refl).
    right; right; left. reflexivity.
Qed.

(** Called without a name on the same directory, the search test finds no
    knowledge base with rag_storage and sends nothing. *)
Example search_without_name :
  test_pipeline_search answering_world (lit "raganything") None
  = ([Print (NL ++ lit "  测试 " ++ lit "raganything" ++ lit " 搜索功能...");
      Warning (lit "没有找到可用的知识库，跳过搜索测试")], Ok false).
Proof. vm_compute. reflexivity. Qed.

(** ** No exception leaves the checks that have a handler *)

Lemma dict_set_has {V} (d : dict V) k v : In (k, v) (dict_set d k v).
Proof.
  induction d as [|[k0 v0] d IH]; simpl; [auto|].
  destruct (pystr_eqb k0 k) eqn:E.
  - apply pystr_eqb_eq in E. subst k0. left; reflexivity.
  - right; assumption.
Qed.

Lemma dict_set_keeps {V} (d : dict V) k v k0 v0 :
  In (k0, v0) d -> exists v1, In (k0, v1) (dict_set d k v).
Proof.
  induction d as [|[k1 v1] d IH]; simpl; [easy|].
  destruct (pystr_eqb k1 k) eqn:E; intros [[= -> ->]|Hin].
  - exists v. left. reflexivity.
  - exists v0. right. assumption.
  - exists v0. left. reflexivity.
  - destruct (IH Hin) as (v2 & H). exists v2. right. assumption.
Qed.

Lemma check_pipeline_sets w results p :
  exists tr v,
    check_pipeline w results p = (tr, Ok (dict_set results (id p) v)).
Proof.
  destruct (get_pipeline w (id p)) as [pl|e] eqn:Hget.
  - rewrite (check_pipeline_built w results p pl Hget). eauto.
  - rewrite (check_pipeline_failed w results p e Hget). eauto.
Qed.

(** Every registered pipeline gets an entry in the result mapping. *)
Lemma check_pipelines_loop_keys w pipelines results tr d :
  check_pipelines_loop w pipelines results = (tr, Ok d) ->
  (forall k v, In (k, v) results -> exists v', In (k, v') d)
  /\ (forall p, In p pipelines -> exists v, In (id p, v) d).
Proof.
  revert results tr. induction pipelines as [|p rest IH]; intros results tr.
  - cbn. intros [= <- <-]. split; [eauto | easy].
  - cbn [check_pipelines_loop].
    destruct (check_pipeline_sets w results p) as (t1 & v & Hrun).
    rewrite (bind_ok _ _ _ _ Hrun).
    destruct (check_pipelines_loop w rest (dict_set results (id p) v))
      as [t2 [d'|e]] eqn:Hloop; cbn [fst snd]; [|discriminate].
    intros [= <- <-]. destruct (IH _ _ Hloop) as [Hold Hnew]. split.
    + intros k v0 Hin.
      destruct (dict_set_keeps results (id p) v k v0 Hin) as (v1 & H1).
      eauto.
    + intros q [<-|Hq]; [|auto].
      apply (Hold (id p) v), dict_set_has.
Qed.

Lemma import_result_caught (r : result unit) :
  (forall e, r = Raise e -> exn_class e = ImportError) ->
  import_result r = Ok match r with Ok _ => true | Raise _ => false end.
Proof.
  intros H. destruct r as [[]|e]; [reflexivity|].
  unfold import_result. rewrite (H e eq_refl). reflexivity.
Qed.

(** C1, as the code has it: failures of the service factories, of the two
    library imports (with ImportError), of pipeline construction and of the
    search call are each caught where they occur and turned into an error
    line (and, for the checks that store one, a failed result entry), and
    the run completes with exit status 0, provided the registry import and
    listing, the listing of the knowledge-base directory and the import of
    the search tool return, which no handler covers. *)
Theorem caught_failures_are_reported w pipelines :
  import_factory w = Ok tt ->
  list_pipelines w = Ok pipelines ->
  (kb_base_exists w = true -> exists entries, kb_base_iterdir w = Ok entries) ->
  import_rag_tool w = Ok tt ->
  (forall e, import_raganything w = Raise e -> exn_class e = ImportError) ->
  (forall e, import_lightrag w = Raise e -> exn_class e = ImportError) ->
  let out := fst (main w) in
  snd (main w) = Ok tt
  /\ exit_status (main w) = 0
  /\ (forall e, get_embedding_client w = Raise e ->
        In (Error (lit "Embedding 服务错误: " ++ exn_msg e)) out
        /\ In (Error (lit "embedding_service" ++ lit ": 不可用")) out)
  /\ (forall e, get_llm_config w = Raise e ->
        In (Error (lit "LLM 服务错误: " ++ exn_msg e)) out
        /\ In (Error (lit "llm_service" ++ lit ": 不可用")) out)
  /\ (forall e, import_raganything w = Raise e ->
        In (Error (lit "无法导入 raganything: " ++ exn_msg e)) out
        /\ In (Error (lit "rag_anything_lib" ++ lit ": 不可用")) out)
  /\ (forall e, import_lightrag w = Raise e ->
        In (Error (lit "无法导入 lightrag: " ++ exn_msg e)) out
        /\ In (Error (lit "lightrag_lib" ++ lit ": 不可用")) out)
  /\ (forall p e, In p pipelines -> get_pipeline w (id p) = Raise e ->
        In (Error (lit "Pipeline 创建失败: " ++ exn_msg e)) out
        /\ exists d, snd (check_pipelines w) = Ok d
                     /\ In (id p, lit "error: " ++ exn_msg e) d)
  /\ (forall kb rest e,
        snd (check_existing_knowledge_bases w) = Ok (kb :: rest) ->
        import_raganything w = Ok tt ->
        rag_search w search_query kb (lit "naive") (lit "raganything")
        = Raise e ->
        In (Error (lit "搜索失败: " ++ exn_msg e)) out).
Proof.
  intros Hfac Hls Hdir Htool Hrag Hlight out.
  (* the four checks that may raise return *)
  pose proof (check_rag_anything_availability_spec w) as Er.
  rewrite (import_result_caught _ Hrag) in Er.
  pose proof (check_lightrag_availability_spec w) as Eli.
  rewrite (import_result_caught _ Hlight) in Eli.
  destruct (check_pipelines_loop_spec w pipelines [])
    as (tlp & d & Hloop & Hd & Herr & _); [easy|].
  pose proof (check_pipelines_listed w pipelines Hfac Hls) as Ep.
  rewrite Hloop in Ep. cbn [fst snd] in Ep.
  assert (Ek : exists tk kbs, check_existing_knowledge_bases w = (tk, Ok kbs)).
  { destruct (kb_base_exists w) eqn:Hex.
    - destruct (Hdir eq_refl) as (entries & Hentries).
      rewrite (check_existing_knowledge_bases_listed w entries Hex Hentries).
      eauto.
    - rewrite (check_existing_knowledge_bases_missing w Hex). eauto. }
  destruct Ek as (tk & kbs & Ek).
  destruct (main_reaches_search w _ _ d kbs
              ltac:(rewrite Er; reflexivity) ltac:(rewrite Eli; reflexivity)
              ltac:(rewrite Ep; reflexivity) ltac:(rewrite Ek; reflexivity))
    as (be & bl & Hbe & Hbl & _ & Hmain).
  set (br := match import_raganything w with Ok _ => true | _ => false end)
    in *.
  set (bli := match import_lightrag w with Ok _ => true | _ => false end)
    in *.
  assert (Hout : out = checks_trace w be bl br bli d kbs
                       ++ fst (search_tests w br kbs))
    by (unfold out; rewrite Hmain; reflexivity).
  assert (Hsummary : forall key,
            In (key, VBool false) (main_results be bl br bli d kbs) ->
            In (Error (key ++ lit ": 不可用")) out).
  { intros key Hin. rewrite Hout.
    destruct (print_summary_returns w (main_results be bl br bli d kbs))
      as (ts & Hs & _ & Hfalse).
    apply in_or_app. left. unfold checks_trace. rewrite Hs. cbn [fst].
    rewrite ?in_app_iff. auto 20. }
  assert (Hsearch : exists tsr, search_tests w br kbs = (tsr, Ok tt)).
  { unfold search_tests. destruct kbs as [|kb rest]; [eauto|].
    destruct br; [|eauto].
    rewrite (test_pipeline_search_given w _ kb Htool Hfac). eauto. }
  destruct Hsearch as (tsr & Hsearch).
  split; [rewrite Hmain, Hsearch; reflexivity|].
  split; [unfold exit_status; rewrite Hmain, Hsearch; reflexivity|].
  split; [|split; [|split; [|split; [|split]]]].
  - intros e He.
    destruct (check_embedding_service_returns w) as (te & b & Ee & _ & Hcaught).
    destruct (Hcaught e He) as [-> Hline].
    rewrite Ee in Hbe. injection Hbe as <-. split.
    + rewrite Hout. apply in_or_app. left. unfold checks_trace.
      rewrite Ee. cbn [fst]. rewrite ?in_app_iff. auto 20.
    + apply Hsummary. left; reflexivity.
  - intros e He.
    destruct (check_llm_service_returns w) as (tl & b & El & _ & Hcaught).
    destruct (Hcaught e He) as [-> Hline].
    rewrite El in Hbl. injection Hbl as <-. split.
    + rewrite Hout. apply in_or_app. left. unfold checks_trace.
      rewrite El. cbn [fst]. rewrite ?in_app_iff. auto 20.
    + apply Hsummary. right; left; reflexivity.
  - intros e He. split.
    + rewrite Hout. apply in_or_app. left. unfold checks_trace.
      rewrite Er, He, (Hrag e He). cbn [fst].
      rewrite ?in_app_iff. do 4 right. left. right.
      apply in_or_app. right. left; reflexivity.
    + apply Hsummary. subst br. rewrite He. do 2 right. left; reflexivity.
  - intros e He. split.
    + rewrite Hout. apply in_or_app. left. unfold checks_trace.
      rewrite Eli, He, (Hlight e He). cbn [fst].
      rewrite ?in_app_iff. do 5 right. left. right. left; reflexivity.
    + apply Hsummary. subst bli. rewrite He. do 3 right. left; reflexivity.
  - intros p e Hp Hget. split.
    + rewrite Hout. apply in_or_app. left. unfold checks_trace.
      rewrite Ep. cbn [fst]. rewrite ?in_app_iff. do 6 right. left.
      right; right. eauto.
    + exists d. split; [rewrite Ep; reflexivity|].
      destruct (check_pipelines_loop_keys w pipelines [] tlp d Hloop)
        as [_ Hkeys].
      destruct (Hkeys p Hp) as (v & Hv).
      destruct (Hd _ _ Hv) as [Hentry _].
      inversion Hentry as [pl Hok Hval|e' Hfail Hval]; [congruence|].
      rewrite Hget in Hfail. injection Hfail as <-.
      rewrite Hval. exact Hv.
  - intros kb rest e Hkbs Himp Hfail.
    rewrite Ek in Hkbs. injection Hkbs as ->.
    rewrite Hout. apply in_or_app. right.
    subst br. rewrite Himp. unfold search_tests.
    rewrite (test_pipeline_search_given w _ kb Htool Hfac), Hfail.
    cbn [fst]. do 3 right. left; reflexivity.
Qed.

Lemma caught_failures_are_reported_witness :
  snd (main search_down) = Ok tt
  /\ exit_status (main search_down) = 0
  /\ In (Error (lit "LLM 服务错误: " ++ lit "LLM_MODEL is not set"))
        (fst (main search_down))
  /\ In (Error (lit "无法导入 lightrag: " ++ exn_msg (no_module "lightrag")))
        (fst (main search_down))
  /\ In (Error (lit "搜索失败: " ++ lit "timed out")) (fst (main search_down)).
Proof.
  destruct (caught_failures_are_reported search_down sample_pipelines
              eq_refl eq_refl
              (fun _ => ex_intro _ sample_entries eq_refl)
              eq_refl
              ltac:(intros e [=])
              ltac:(intros e [= <-]; reflexivity))
    as (Hret & Hexit & _ & Hllm & _ & Hlight & _ & Hsearch).
  split; [exact Hret|]. split; [exact Hexit|]. split; [|split].
  - exact (proj1 (Hllm _ eq_refl)).
  - exact (proj1 (Hlight _ eq_refl)).
  - apply (Hsearch (lit "notes") []
             {| exn_class := OtherException; exn_msg := lit "timed out" |});
      [|reflexivity|reflexivity].
    apply (sample_world_checks (Ok tt) (Ok sample_entries)).
Defined.

(** C1 as stated fails: the import of the pipeline registry is outside every
    handler, so its failure leaves [main] right after the header of the
    pipeline check; nothing is printed for it and the exit status is 1. *)
Lemma registry_failure_escapes :
  snd (main registry_down) = Raise (no_module "llama_index")
  /\ last (fst (main registry_down)) = Some (Header (lit "Pipeline 可用性检查"))
  /\ exit_status (main registry_down) = 1
  /\ ~ (forall w, exists tr, main w = (tr, Ok tt)).
Proof.
  assert (H : snd (main registry_down) = Raise (no_module "llama_index"))
    by (vm_compute; reflexivity).
  split; [exact H|]. split; [vm_compute; reflexivity|].
  split; [vm_compute; reflexivity|].
  intros Hall. destruct (Hall registry_down) as (tr & Hrun).
  rewrite Hrun in H. discriminate.
Qed.

(** The listing of the registry and of the knowledge-base directory are
    outside every handler as well. *)
Example listing_failures_escape :
  exit_status
    (main (sample_world (Ok tt)
             (Raise {| exn_class := OtherException;
                       exn_msg := lit "registry not loaded" |})
             (Ok sample_entries) (Ok {| answer := None |}))) = 1
  /\ exit_status
       (main (sample_world (Ok tt) (Ok sample_pipelines)
                (Raise {| exn_class := OtherException;
                          exn_msg := lit "Permission denied" |})
                (Ok {| answer := None |}))) = 1.
Proof. split; vm_compute; reflexivity. Qed.

(** * Further properties of the script *)

(** ** Masking and the environment check *)



Lemma flat_map_ext_on {A B} (f g : A -> list B) (l : list A) :
  (forall x, In x l -> f x = g x) -> flat_map f l = flat_map g l.
Proof.
  induction l as [|x l IH]; intros H; [reflexivity|].
  cbn [flat_map]. rewrite (H x), IH; auto using in_eq, in_cons.
Qed.

Lemma check_env_var_one_event environ vd :
  exists ev, check_env_var environ vd = emit ev.
Proof.
  destruct vd as [var dflt]. unfold check_env_var.
  destruct (getenv environ var dflt) as [[|c s]|];
    try (eexists; reflexivity).
  destruct (contains _ _ && _); eexists; reflexivity.
Qed.

(** X2: the environment check never raises and prints the header and one
    line for each of the five variables, whatever the environment holds; its
    output depends on no other variable. *)
Theorem check_environment_reads_five_variables
    (environ environ' : gmap pystr pystr) :
  snd (check_environment environ) = Ok tt
  /\ length (fst (check_environment environ)) = 6
  /\ ((forall var dflt, In (var, dflt) env_vars ->
         environ !! var = environ' !! var) ->
      check_environment environ = check_environment environ').
Proof.
  rewrite !check_environment_trace. cbn [fst snd].
  split; [reflexivity|]. split.
  - cbn [length]. f_equal.
    assert (H : forall vds,
               length (flat_map
                         (fun vd => fst (check_env_var environ vd)) vds)
               = length vds).
    { induction vds as [|vd vds IH]; [reflexivity|].
      cbn [flat_map]. rewrite length_app, IH.
      destruct (check_env_var_one_event environ vd) as (ev & ->).
      reflexivity. }
    rewrite H. reflexivity.
  - intros Hsame. f_equal. f_equal.
    apply flat_map_ext_on. intros [var dflt] Hin.
    unfold check_env_var, getenv. rewrite (Hsame var dflt Hin). reflexivity.
Qed.

Lemma check_environment_reads_five_variables_witness :
  check_environment api_key_env
  = check_environment (<[lit "AWS_SECRET_KEY" := lit "hunter2"]> api_key_env).
Proof.
  apply (check_environment_reads_five_variables api_key_env
           (<[lit "AWS_SECRET_KEY" := lit "hunter2"]> api_key_env)).
  intros var dflt Hin. symmetry. apply lookup_insert_ne.
  repeat destruct Hin as [[= <- <-]|Hin]; try discriminate. destruct Hin.
Defined.

(** ** The service and library checks *)

(** X3: the embedding check never raises.  It returns True exactly when the
    client is obtained and its model can be shown; a client without the
    attribute [config] is shown as "unknown", and a failure while reading
    the model comes after the success line and still gives False. *)
Theorem embedding_check_outcome w :
  exists tr b,
    check_embedding_service w = (tr, Ok b)
    /\ (b = true <->
        exists c, get_embedding_client w = Ok c
                  /\ forall e, config_model c <> Some (Raise e))
    /\ (forall c, get_embedding_client w = Ok c -> config_model c = None ->
          In (Info (lit "Model: " ++ lit "unknown")) tr)
    /\ (forall c e, get_embedding_client w = Ok c ->
          config_model c = Some (Raise e) ->
          tr = [Header (lit "Embedding 服务检查");
                Success (lit "Embedding 客户端可用");
                Error (lit "Embedding 服务错误: " ++ exn_msg e)]).
Proof.
  rewrite check_embedding_service_spec.
  destruct (get_embedding_client w) as [[[[m|e]|]]|e];
    eexists _, _; (split; [reflexivity|]); split.
  - split; [|reflexivity]. intros _. eexists. split; [reflexivity|].
    discriminate.
  - split; [intros c [= <-] [=] | intros c e [= <-] [=]].
  - split; [discriminate|].
    intros (c & [= <-] & Hc). destruct (Hc e). reflexivity.
  - split; [intros c [= <-] [=] | intros c e' [= <-] [= <-]; reflexivity].
  - split; [|reflexivity]. intros _. eexists. split; [reflexivity|].
    discriminate.
  - split; [intros c [= <-] _; right; right; left; reflexivity
           | intros c e [= <-] [=]].
  - split; [discriminate | intros (c & [=] & _)].
  - split; [intros c [=] | intros c e' [=]].
Qed.


(** X5: the handlers of the two library checks catch ImportError only.  Any
    other exception raised while RAG-Anything or LightRAG is imported leaves
    the check and ends the run there, with exit status 1 and without the
    later checks, the summary or the recommendations. *)
Theorem library_import_failure_ends_run w e :
  exn_class e = OtherException ->
  (import_raganything w = Raise e ->
     snd (check_rag_anything_availability w) = Raise e
     /\ snd (main w) = Raise e
     /\ exit_status (main w) = 1
     /\ steps (fst (main w)) = map Stage (take 4 check_order))
  /\ (import_lightrag w = Raise e ->
      snd (check_lightrag_availability w) = Raise e
      /\ (forall b, snd (check_rag_anything_availability w) = Ok b ->
            snd (main w) = Raise e
            /\ exit_status (main w) = 1
            /\ steps (fst (main w)) = map Stage (take 5 check_order))).
Proof.
  intros Hclass.
  destruct (main_cases w) as (te & be & tl & bl & He & Hl & Hmain).
  cbv zeta in Hmain.
  pose proof (check_rag_anything_availability_steps w) as Sr.
  pose proof (check_lightrag_availability_steps w) as Sli.
  pose proof (check_embedding_service_steps w) as Se.
  pose proof (check_llm_service_steps w) as Sl.
  pose proof (check_environment_steps (environ w)) as Senv.
  rewrite He in Se. rewrite Hl in Sl. cbn [fst] in Se, Sl.
  assert (S0 : steps (banner w ++ fst (check_environment (environ w))
                      ++ te ++ tl)
               = map Stage (take 3 check_order)).
  { rewrite !steps_app, Senv, Se, Sl. reflexivity. }
  pose proof (check_rag_anything_availability_spec w) as Er.
  pose proof (check_lightrag_availability_spec w) as Eli.
  split.
  - intros Hrag. rewrite Hrag in Er. unfold import_result in Er.
    rewrite Hclass in Er. rewrite Er in Hmain, Sr |- *.
    cbn [fst snd] in Sr |- *. unfold exit_status.
    rewrite Hmain. cbn [fst snd]. rewrite steps_app, S0, Sr.
    repeat split; reflexivity.
  - intros Hlight. rewrite Hlight in Eli. unfold import_result in Eli.
    rewrite Hclass in Eli. split; [rewrite Eli; reflexivity|].
    intros b Hb.
    destruct (check_rag_anything_availability w) as [tr [b'|e']];
      cbn [fst snd] in Hb, Sr; [|discriminate].
    rewrite Eli in Hmain, Sli. cbn [fst] in Sli.
    unfold exit_status. rewrite Hmain. cbn [fst snd].
    rewrite steps_app, S0, steps_app, Sr, Sli. repeat split; reflexivity.
Qed.

Lemma library_import_failure_ends_run_witness :
  snd (main broken_library_world) = Raise version_clash
  /\ exit_status (main broken_library_world) = 1
  /\ steps (fst (main broken_library_world)) = map Stage (take 4 check_order).
Proof.
  destruct (library_import_failure_ends_run broken_library_world
              version_clash eq_refl) as [Hrag _].
  destruct (Hrag eq_refl) as (_ & Hraise & Hexit & Hsteps).
  repeat split; assumption.
Defined.

(** ** The pipeline check *)









Example twice_listed_result :
  snd (check_pipelines
         (sample_world (Ok tt) (Ok twice_listed) (Ok [])
            (Ok {| answer := None |})))
  = Ok [ (lit "llamaindex", lit "available");
         (lit "raganything", lit "error: not initialised") ].
Proof. vm_compute. reflexivity. Qed.

(** ** The knowledge-base scan *)

(** X7: when the knowledge-base directory does not exist, the scan prints
    one warning naming the path and returns the empty list without listing
    anything, and the run then completes without the search test: neither
    the listing nor the search tool is used. *)
Theorem missing_kb_dir_skips_search w br bli d :
  kb_base_exists w = false ->
  snd (check_rag_anything_availability w) = Ok br ->
  snd (check_lightrag_availability w) = Ok bli ->
  snd (check_pipelines w) = Ok d ->
  check_existing_knowledge_bases w
  = ([Header (lit "已有知识库检查");
      Warning (lit "知识库目录不存在: " ++ kb_base w)], Ok [])
  /\ snd (main w) = Ok tt
  /\ exit_status (main w) = 0
  /\ steps (fst (main w)) = map Stage (take 9 check_order)
  /\ In (Warning (lit "知识库目录不存在: " ++ kb_base w)) (fst (main w)).
Proof.
  intros Hex Hr Hli Hp.
  pose proof (check_existing_knowledge_bases_missing w Hex) as Hk.
  split; [exact Hk|].
  destruct (main_reaches_search w br bli d [] Hr Hli Hp
              ltac:(rewrite Hk; reflexivity))
    as (be & bl & _ & _ & Hsteps & Hmain).
  unfold exit_status. rewrite Hmain. cbn [search_tests fst snd].
  rewrite app_nil_r. repeat (split; [first [reflexivity | exact Hsteps]|]).
  unfold checks_trace. rewrite Hk. cbn [fst].
  rewrite !in_app_iff. do 7 right. left. right; left; reflexivity.
Qed.

Lemma missing_kb_dir_skips_search_witness :
  snd (main missing_dir_world) = Ok tt
  /\ steps (fst (main missing_dir_world)) = map Stage (take 9 check_order)
  /\ In (Warning (lit "知识库目录不存在: " ++ lit "/app/data/knowledge_bases"))
        (fst (main missing_dir_world)).
Proof.
  destruct (sample_world_checks (Ok tt) (Ok sample_entries)
              (Ok {| answer := Some (lit "Graph theory.") |}))
    as (Hr & Hli & Hp & _).
  destruct (missing_kb_dir_skips_search missing_dir_world true false _
              eq_refl Hr Hli Hp)
    as (_ & Hret & _ & Hsteps & Hwarn).
  repeat split; assumption.
Defined.

Lemma usable_kbs_sublist entries :
  sublist (usable_kbs entries) (map dir_name entries).
Proof.
  unfold usable_kbs. induction entries as [|d entries IH]; [constructor|].
  cbn [List.filter map]. destruct (is_dir d && has_marker d).
  - cbn [map]. apply sublist_skip. exact IH.
  - apply sublist_cons. exact IH.
Qed.

Lemma check_kb_dir_lines entries :
  length (flat_map (fun d => fst (check_kb_dir [] d)) entries)
  = length (List.filter is_dir entries).
Proof.
  induction entries as [|d entries IH]; [reflexivity|].
  cbn [flat_map List.filter]. rewrite length_app, IH.
  destruct (is_dir d) eqn:Hdir.
  - destruct (has_marker d) eqn:Hm.
    + rewrite (check_kb_dir_usable [] d Hdir Hm). reflexivity.
    + rewrite (check_kb_dir_empty [] d Hdir Hm). reflexivity.
  - rewrite (check_kb_dir_file [] d Hdir). reflexivity.
Qed.

(** X8: the scan of an existing directory prints one line per subdirectory
    and none for a plain file, plus one closing warning exactly when no
    subdirectory has a marker; the returned names keep the order of the
    listing. *)
Theorem kb_scan_shape w entries :
  kb_base_exists w = true ->
  kb_base_iterdir w = Ok entries ->
  exists tr kbs,
    check_existing_knowledge_bases w = (tr, Ok kbs)
    /\ sublist kbs (map dir_name entries)
    /\ (kbs = [] <->
        forall d, In d entries -> is_dir d = true -> has_marker d = false)
    /\ length tr
       = 1 + length (List.filter is_dir entries)
         + (if bool_decide (kbs = []) then 1 else 0).
Proof.
  intros Hex Hls.
  rewrite (check_existing_knowledge_bases_listed w entries Hex Hls).
  eexists _, _. split; [reflexivity|].
  split; [apply usable_kbs_sublist|]. split.
  - unfold usable_kbs. split.
    + intros Hnil d Hin Hdir. destruct (has_marker d) eqn:Hm; [|reflexivity].
      assert (Habs : In (dir_name d)
                       (map dir_name
                          (List.filter (fun d => is_dir d && has_marker d)
                             entries))).
      { apply in_map, filter_In. rewrite Hdir, Hm. auto. }
      rewrite Hnil in Habs. destruct Habs.
    + intros Hnone.
      destruct (List.filter _ entries) as [|d rest] eqn:E; [reflexivity|].
      assert (Hin : In d (List.filter (fun d => is_dir d && has_marker d)
                            entries))
        by (rewrite E; left; reflexivity).
      apply filter_In in Hin as [Hin Hok].
      apply andb_true_iff in Hok as [Hdir Hm].
      rewrite (Hnone d Hin Hdir) in Hm. discriminate.
  - cbn [length]. rewrite length_app, check_kb_dir_lines.
    destruct (usable_kbs entries) as [|kb rest]; cbn; lia.
Qed.

Lemma kb_scan_shape_witness :
  exists tr kbs,
    check_existing_knowledge_bases answering_world = (tr, Ok kbs)
    /\ sublist kbs (map dir_name sample_entries)
    /\ length tr
       = 1 + length (List.filter is_dir sample_entries)
         + (if bool_decide (kbs = []) then 1 else 0).
Proof.
  destruct (kb_scan_shape answering_world sample_entries eq_refl eq_refl)
    as (tr & kbs & Hrun & Hsub & _ & Hlen).
  exists tr, kbs. repeat split; assumption.
Defined.

(** ** The search test *)

Lemma dirs_with_rag_storage_none entries :
  (forall d, In d entries -> is_dir d = true -> rag_storage_exists d = false) ->
  dirs_with_rag_storage entries = [].
Proof.
  intros Hnone. unfold dirs_with_rag_storage.
  induction entries as [|d entries IH]; [reflexivity|].
  cbn [List.filter]. destruct (is_dir d) eqn:Hdir.
  - rewrite (Hnone d (or_introl eq_refl) Hdir). cbn [andb].
    apply IH. intros; apply Hnone; auto using in_cons.
  - cbn [andb]. apply IH. intros; apply Hnone; auto using in_cons.
Qed.

Lemma dirs_with_rag_storage_first before d after :
  (forall x, In x before -> is_dir x && rag_storage_exists x = false) ->
  is_dir d = true -> rag_storage_exists d = true ->
  exists rest,
    dirs_with_rag_storage (before ++ d :: after) = dir_name d :: rest.
Proof.
  intros Hbefore Hdir Hrag. unfold dirs_with_rag_storage.
  induction before as [|x before IH].
  - cbn [app List.filter]. rewrite Hdir, Hrag. cbn. eauto.
  - cbn [app List.filter]. rewrite (Hbefore x (or_introl eq_refl)).
    apply IH. intros; apply Hbefore; auto using in_cons.
Qed.

(** X9: called without a name, the search test looks for a directory with
    rag_storage; when the knowledge-base directory is missing or none of its
    subdirectories has rag_storage (whatever other markers they have), it
    prints a warning and returns False without sending a request. *)
Theorem search_without_kb_is_skipped w pipeline_id :
  import_rag_tool w = Ok tt ->
  import_factory w = Ok tt ->
  (kb_base_exists w = false
   \/ exists entries,
        kb_base_iterdir w = Ok entries
        /\ forall d, In d entries -> is_dir d = true ->
                     rag_storage_exists d = false) ->
  test_pipeline_search w pipeline_id None
  = ([Print (NL ++ lit "  测试 " ++ pipeline_id ++ lit " 搜索功能...");
      Warning (lit "没有找到可用的知识库，跳过搜索测试")], Ok false).
Proof.
  intros Htool Hfac Hnone.
  assert (Hfind : find_existing_kb w = ([], Ok None)).
  { unfold find_existing_kb. destruct (kb_base_exists w); [|reflexivity].
    destruct Hnone as [[=]|(entries & -> & Hnone)].
    rewrite lift_ok, bind_ret, (dirs_with_rag_storage_none entries Hnone).
    reflexivity. }
  unfold test_pipeline_search.
  rewrite Htool, Hfac, !lift_ok, !bind_ret. unfold print.
  rewrite (bind_ok _ _ [Print _] tt) by reflexivity. cbv beta.
  rewrite (bind_ok _ _ _ _ Hfind). reflexivity.
Qed.

Lemma search_without_kb_is_skipped_witness :
  test_pipeline_search answering_world (lit "raganything") None
  = ([Print (NL ++ lit "  测试 " ++ lit "raganything" ++ lit " 搜索功能...");
      Warning (lit "没有找到可用的知识库，跳过搜索测试")], Ok false).
Proof.
  apply (search_without_kb_is_skipped answering_world (lit "raganything")
           eq_refl eq_refl).
  right. exists sample_entries. split; [reflexivity|].
  intros d [<-|[<-|[<-|[]]]] _; reflexivity.
Defined.

(** X10: called without a name, the search test takes the first
    subdirectory of the listing that has rag_storage, says so, and then
    does exactly what it does when given that name. *)
Theorem search_without_name_uses_first_indexed w pipeline_id before d after :
  import_rag_tool w = Ok tt ->
  import_factory w = Ok tt ->
  kb_base_exists w = true ->
  kb_base_iterdir w = Ok (before ++ d :: after) ->
  (forall x, In x before -> is_dir x && rag_storage_exists x = false) ->
  is_dir d = true ->
  rag_storage_exists d = true ->
  exists intro rest outcome,
    test_pipeline_search w pipeline_id (Some (dir_name d))
    = (intro :: rest, outcome)
    /\ test_pipeline_search w pipeline_id None
       = (intro :: Info (lit "使用已有知识库: " ++ dir_name d) :: rest, outcome)
    /\ steps rest
       = [LiveSearch search_query (dir_name d) (lit "naive") pipeline_id].
Proof.
  intros Htool Hfac Hex Hls Hbefore Hdir Hrag.
  destruct (dirs_with_rag_storage_first before d after Hbefore Hdir Hrag)
    as (others & Hfirst).
  assert (Hfind : find_existing_kb w
                  = ([Info (lit "使用已有知识库: " ++ dir_name d)],
                     Ok (Some (dir_name d)))).
  { unfold find_existing_kb. rewrite Hex, Hls, lift_ok, bind_ret, Hfirst.
    reflexivity. }
  pose proof (test_pipeline_search_given w pipeline_id (dir_name d) Htool Hfac)
    as Hgiven.
  pose proof (test_pipeline_search_steps w pipeline_id (dir_name d)) as Hsteps.
  rewrite Htool, Hfac, Hgiven in Hsteps. cbn [fst] in Hsteps.
  rewrite (steps_cons_none (Print _) _ eq_refl) in Hsteps.
  eexists _, _, _. split; [exact Hgiven|]. split; [|exact Hsteps].
  unfold test_pipeline_search.
  rewrite Htool, Hfac, !lift_ok, !bind_ret. unfold print.
  rewrite (bind_ok _ _ [Print _] tt) by reflexivity. cbv beta.
  rewrite (bind_ok _ _ _ _ Hfind). cbv beta iota.
  destruct (rag_search w search_query (dir_name d) (lit "naive") pipeline_id)
    as [result|e]; [|reflexivity].
  rewrite lift_ok. unfold emit.
  rewrite (bind_ok _ _ [RagSearch _ _ _ _] tt) by reflexivity.
  cbv beta. rewrite ?bind_ret.
  destruct (0 <? length (default (lit "") (answer result))); reflexivity.
Qed.

Lemma search_without_name_uses_first_indexed_witness :
  exists intro rest outcome,
    test_pipeline_search indexed_world (lit "raganything")
      (Some (lit "papers"))
    = (intro :: rest, outcome)
    /\ test_pipeline_search indexed_world (lit "raganything") None
       = (intro :: Info (lit "使用已有知识库: " ++ lit "papers") :: rest, outcome)
    /\ steps rest
       = [LiveSearch search_query (lit "papers") (lit "naive")
            (lit "raganything")].
Proof.
  apply (search_without_name_uses_first_indexed indexed_world
           (lit "raganything") [notes_dir] papers_dir
           [readme_file; thesis_dir] eq_refl eq_refl eq_refl eq_refl).
  - intros x [<-|[]]. reflexivity.
  - reflexivity.
  - reflexivity.
Defined.

(** X11: once its imports have succeeded, the search test with a given
    name never raises and sends exactly one request.  An exception of the
    search gives an error line with its message and False; a result
    without the key [answer] counts as an empty answer (warning, False);
    True comes only with a non-empty answer, whose length in characters the
    success line shows. *)
Theorem search_test_outcome w pipeline_id kb :
  import_rag_tool w = Ok tt ->
  import_factory w = Ok tt ->
  exists verdict b,
    test_pipeline_search w pipeline_id (Some kb)
    = ([Print (NL ++ lit "  测试 " ++ pipeline_id ++ lit " 搜索功能...");
        RagSearch search_query kb (lit "naive") pipeline_id;
        verdict], Ok b)
    /\ (forall e,
          rag_search w search_query kb (lit "naive") pipeline_id = Raise e ->
          verdict = Error (lit "搜索失败: " ++ exn_msg e) /\ b = false)
    /\ (forall result,
          rag_search w search_query kb (lit "naive") pipeline_id = Ok result ->
          answer result = None ->
          verdict = Warning (lit "搜索返回空结果") /\ b = false)
    /\ (b = true ->
        exists result text,
          rag_search w search_query kb (lit "naive") pipeline_id = Ok result
          /\ answer result = Some text
          /\ text <> []
          /\ verdict = Success (lit "搜索成功，返回 " ++ str_of_nat (length text)
                                ++ lit " 字符")).
Proof.
  intros Htool Hfac.
  rewrite (test_pipeline_search_given w pipeline_id kb Htool Hfac).
  destruct (rag_search w search_query kb (lit "naive") pipeline_id)
    as [result|e].
  - cbv zeta. destruct (answer result) as [text|] eqn:Hanswer.
    + destruct text as [|c text]; cbn [default length Nat.ltb Nat.leb].
      * eexists _, _. split; [reflexivity|].
        split; [intros e [=]|]. split; [intros r [= <-]; congruence|].
        intros [=].
      * eexists _, _. split; [reflexivity|].
        split; [intros e [=]|]. split; [intros r [= <-]; congruence|].
        intros _. exists result, (c :: text).
        repeat split; [assumption | discriminate].
    + change (default (lit "") None) with (@nil pychar).
      cbn [length Nat.ltb Nat.leb].
      eexists _, _. split; [reflexivity|].
      split; [intros e [=]|]. split; [intros r [= <-] _; auto|].
      intros [=].
  - eexists _, _. split; [reflexivity|].
    split; [intros e' [= <-]; auto|]. split; [intros r [=]|]. intros [=].
Qed.

Lemma search_test_outcome_witness :
  exists verdict b,
    test_pipeline_search no_answer_world (lit "llamaindex") (Some (lit "notes"))
    = ([Print (NL ++ lit "  测试 " ++ lit "llamaindex" ++ lit " 搜索功能...");
        RagSearch search_query (lit "notes") (lit "naive") (lit "llamaindex");
        verdict], Ok b)
    /\ verdict = Warning (lit "搜索返回空结果") /\ b = false.
Proof.
  destruct (search_test_outcome no_answer_world (lit "llamaindex")
              (lit "notes") eq_refl eq_refl)
    as (verdict & b & Hrun & _ & Hmissing & _).
  exists verdict, b. split; [exact Hrun|].
  exact (Hmissing {| answer := None |} eq_refl eq_refl).
Defined.

(** X12: the imports at the head of the search test have no handler.  When
    the search tool cannot be imported, the exception leaves [main] after
    all nine checks and right after the header of the search test: nothing
    is sent, and the exit status is 1 although every check completed. *)
Theorem search_tool_import_failure_ends_run w e bli d kb rest :
  import_rag_tool w = Raise e ->
  snd (check_rag_anything_availability w) = Ok true ->
  snd (check_lightrag_availability w) = Ok bli ->
  snd (check_pipelines w) = Ok d ->
  snd (check_existing_knowledge_bases w) = Ok (kb :: rest) ->
  snd (main w) = Raise e
  /\ exit_status (main w) = 1
  /\ steps (fst (main w)) = map Stage check_order
  /\ last (fst (main w)) = Some (Header (lit "搜索功能测试")).
Proof.
  intros Htool Hr Hli Hp Hk.
  destruct (main_reaches_search w true bli d (kb :: rest) Hr Hli Hp Hk)
    as (be & bl & _ & _ & Hsteps & Hmain).
  unfold search_tests in Hmain.
  rewrite (test_pipeline_search_no_tool w _ _ e Htool) in Hmain.
  cbn [fst snd] in Hmain. unfold exit_status. rewrite Hmain. cbn [fst snd].
  split; [reflexivity|]. split; [reflexivity|]. split.
  - rewrite steps_app, Hsteps. reflexivity.
  - apply last_snoc.
Qed.

Lemma search_tool_import_failure_ends_run_witness :
  snd (main no_search_tool_world) = Raise (no_module "src.tools.rag_tool")
  /\ exit_status (main no_search_tool_world) = 1
  /\ steps (fst (main no_search_tool_world)) = map Stage check_order
  /\ last (fst (main no_search_tool_world))
     = Some (Header (lit "搜索功能测试")).
Proof.
  destruct (sample_world_checks (Ok tt) (Ok sample_entries)
              (Ok {| answer := Some (lit "Graph theory.") |}))
    as (Hr & Hli & Hp & Hk).
  exact (search_tool_import_failure_ends_run no_search_tool_world _ false _
           (lit "notes") [] eq_refl Hr Hli Hp Hk).
Defined.

(** ** The summary *)

Lemma startswith_prefix (p s : pystr) : startswith (p ++ s) p = true.
Proof.
  induction p as [|c p IH]; [destruct s; reflexivity|].
  cbn [app startswith]. rewrite N.eqb_refl, IH. reflexivity.
Qed.

Lemma print_summary_trace w results :
  print_summary w results
  = (Header (lit "诊断总结")
       :: flat_map (fun kv => fst (summary_line w kv)) results, Ok tt).
Proof.
  unfold print_summary, print_header.
  rewrite (bind_ok _ _ [Header _] tt) by reflexivity.
  rewrite for_each_ok; [reflexivity|].
  intros kv _. destruct (summary_line_emits w kv) as (ev & -> & _).
  reflexivity.
Qed.

(** X13: the summary never raises and prints its header and one line per
    entry of the results.  True and "available" give a success line, False
    an error line, a string starting with "error" an error line showing the
    string; a list or a dict is always shown as a warning with its repr,
    whatever it contains. *)
Theorem summary_lines w results :
  exists tr,
    print_summary w results = (tr, Ok tt)
    /\ length tr = S (length results)
    /\ (forall key, In (key, VBool true) results ->
          In (Success (key ++ lit ": 可用")) tr)
    /\ (forall key, In (key, VStr (lit "available")) results ->
          In (Success (key ++ lit ": 可用")) tr)
    /\ (forall key, In (key, VBool false) results ->
          In (Error (key ++ lit ": 不可用")) tr)
    /\ (forall key message,
          In (key, VStr (lit "error" ++ message)) results ->
          In (Error (key ++ lit ": " ++ lit "error" ++ message)) tr)
    /\ (forall key l, In (key, VList l) results ->
          In (Warning (key ++ lit ": " ++ py_repr w (VList l))) tr)
    /\ (forall key d, In (key, VDict d) results ->
          In (Warning (key ++ lit ": " ++ py_repr w (VDict d))) tr).
Proof.
  rewrite print_summary_trace. eexists. split; [reflexivity|].
  assert (Hline : forall kv ev,
            In kv results -> summary_line w kv = emit ev ->
            In ev (Header (lit "诊断总结")
                     :: flat_map (fun kv => fst (summary_line w kv)) results)).
  { intros kv ev Hin Hev. right. apply in_flat_map. exists kv.
    split; [assumption|]. rewrite Hev. left; reflexivity. }
  split.
  - cbn [length]. f_equal. clear Hline.
    induction results as [|kv results IH]; [reflexivity|].
    cbn [flat_map]. rewrite length_app, IH.
    destruct (summary_line_emits w kv) as (ev & -> & _). reflexivity.
  - repeat split; intros; eapply Hline; try eassumption; try reflexivity.
    cbn [summary_line].
    replace (pystr_eqb (lit "error" ++ message) (lit "available"))
      with false by (vm_compute; reflexivity).
    rewrite startswith_prefix. reflexivity.
Qed.

(** X14: in the summary of a run, the [pipelines] and [knowledge_bases]
    entries are a dict and a list, so both are printed as warnings showing
    the repr of the value, also when every pipeline is available and
    knowledge bases were found. *)
Theorem run_summary_warns_for_containers w br bli d kbs :
  snd (check_rag_anything_availability w) = Ok br ->
  snd (check_lightrag_availability w) = Ok bli ->
  snd (check_pipelines w) = Ok d ->
  snd (check_existing_knowledge_bases w) = Ok kbs ->
  In (Warning (lit "pipelines" ++ lit ": " ++ py_repr w (VDict d)))
     (fst (main w))
  /\ In (Warning (lit "knowledge_bases" ++ lit ": " ++ py_repr w (VList kbs)))
        (fst (main w)).
Proof.
  intros Hr Hli Hp Hk.
  destruct (main_reaches_search w br bli d kbs Hr Hli Hp Hk)
    as (be & bl & _ & _ & _ & Hmain).
  rewrite Hmain. cbn [fst].
  destruct (summary_lines w (main_results be bl br bli d kbs))
    as (ts & Hs & _ & _ & _ & _ & _ & Hlist & Hdict).
  assert (Hin : forall ev, In ev ts ->
            In ev (checks_trace w be bl br bli d kbs
                   ++ fst (search_tests w br kbs))).
  { intros ev Hev. apply in_or_app. left. unfold checks_trace.
    rewrite Hs. cbn [fst]. rewrite !in_app_iff. auto 20. }
  split; apply Hin.
  - apply Hdict. unfold main_results. do 4 right. left; reflexivity.
  - apply Hlist. unfold main_results. do 5 right. left; reflexivity.
Qed.

Lemma run_summary_warns_for_containers_witness :
  In (Warning (lit "pipelines" ++ lit ": " ++ lit "<repr>"))
     (fst (main answering_world))
  /\ In (Warning (lit "knowledge_bases" ++ lit ": " ++ lit "<repr>"))
        (fst (main answering_world)).
Proof.
  destruct (sample_world_checks (Ok tt) (Ok sample_entries)
              (Ok {| answer := Some (lit "Graph theory.") |}))
    as (Hr & Hli & Hp & Hk).
  exact (run_summary_warns_for_containers answering_world true false _ _
           Hr Hli Hp Hk).
Defined.

(** ** The recommendations *)

Lemma main_results_missing be bl br bli d kbs :
  missing (main_results be bl br bli d kbs) (lit "rag_anything_lib") = negb br
  /\ missing (main_results be bl br bli d kbs) (lit "embedding_service")
     = negb be
  /\ missing (main_results be bl br bli d kbs) (lit "llm_service") = negb bl.
Proof. destruct be, bl, br; repeat split; vm_compute; reflexivity. Qed.

Lemma print_numbered_trace i recommendations :
  exists texts,
    print_numbered i recommendations = (map Print texts, Ok tt)
    /\ length texts = length recommendations.
Proof.
  revert i. induction recommendations as [|r rest IH]; intros i.
  - exists []. split; reflexivity.
  - destruct (IH (S i)) as (texts & Hrun & Hlen).
    cbn [print_numbered]. unfold print.
    rewrite (bind_ok _ _ [Print _] tt) by reflexivity. rewrite Hrun.
    eexists (_ :: texts). split; [reflexivity|]. cbn [length]. lia.
Qed.

(** What [main] passes to the recommendations: a note when [llamaindex] is
    available, then the recommendations due, numbered from 1, or the
    all-is-well line when none is due. *)
Lemma print_recommendations_main be bl br bli d kbs :
  print_recommendations (main_results be bl br bli d kbs)
  = (Header (lit "建议")
       :: (if llamaindex_is_available d then [Success llamaindex_note] else [])
       ++ match recommendations_for be bl br with
          | [] => [Success (lit "所有服务正常运行!")]
          | recs => fst (print_numbered 1 recs)
          end,
     Ok tt).
Proof.
  unfold print_recommendations, print_header, llamaindex_available.
  rewrite (bind_ok _ _ [Header _] tt) by reflexivity. cbv beta.
  destruct (main_results_missing be bl br bli d kbs) as (-> & -> & ->).
  rewrite main_results_pipelines, bind_ret.
  fold (llamaindex_is_available d). fold llamaindex_note.
  assert (Hrecs : (if negb br then [rec_rag_anything] else [])
                  ++ (if negb be then [rec_embedding] else [])
                  ++ (if negb bl then [rec_llm] else [])
                  = recommendations_for be bl br)
    by (destruct be, bl, br; reflexivity).
  rewrite Hrecs.
  assert (Hadvice : exists tr,
            match recommendations_for be bl br with
            | [] => print_success (lit "所有服务正常运行!")
            | _ :: _ => print_numbered 1 (recommendations_for be bl br)
            end = (tr, Ok tt)
            /\ tr = match recommendations_for be bl br with
                    | [] => [Success (lit "所有服务正常运行!")]
                    | recs => fst (print_numbered 1 recs)
                    end).
  { destruct (recommendations_for be bl br) as [|r recs];
      [eexists; split; reflexivity|].
    destruct (print_numbered_trace 1 (r :: recs)) as (texts & -> & _).
    eexists; split; reflexivity. }
  destruct Hadvice as (tr & Hrun & ->).
  destruct (llamaindex_is_available d).
  - unfold print_success at 1.
    rewrite (bind_ok _ _ [Success _] tt) by reflexivity.
    rewrite Hrun. reflexivity.
  - rewrite bind_ret, Hrun. reflexivity.
Qed.

(** X15: the recommendations of a run depend on three results only.  The
    all-is-well line is printed exactly when the embedding, LLM and
    RAG-Anything checks all returned True; otherwise one numbered
    recommendation is printed per failed check of these three.  The
    LightRAG result and the knowledge bases found never change what is
    recommended. *)
Theorem recommendations_of_a_run be bl br bli d kbs :
  exists tr,
    print_recommendations (main_results be bl br bli d kbs) = (tr, Ok tt)
    /\ (forall bli' kbs',
          print_recommendations (main_results be bl br bli' d kbs')
          = (tr, Ok tt))
    /\ (In (Success (lit "所有服务正常运行!")) tr
        <-> be = true /\ bl = true /\ br = true)
    /\ length (List.filter (fun ev => match ev with Print _ => true
                                              | _ => false end) tr)
       = length (List.filter negb [br; be; bl]).
Proof.
  rewrite print_recommendations_main. eexists. split; [reflexivity|].
  split; [intros; apply print_recommendations_main|].
  assert (Hnote : Success llamaindex_note
                  <> Success (lit "所有服务正常运行!"))
    by (intros [= H]; vm_compute in H; discriminate H).
  split.
  - split.
    + intros [H|H]; [discriminate|].
      apply in_app_or in H as [H|H].
      { destruct (llamaindex_is_available d); [|destruct H].
        destruct H as [H|[]]. contradiction. }
      destruct be, bl, br; auto;
        cbn in H; repeat destruct H as [H|H]; try discriminate; destruct H.
    + intros (-> & -> & ->). right. apply in_or_app. right.
      left; reflexivity.
  - cbn [List.filter]. rewrite List.filter_app.
    replace (List.filter _
               (if llamaindex_is_available d
                then [Success llamaindex_note] else []))
      with (@nil event) by (destruct (llamaindex_is_available d); reflexivity).
    destruct be, bl, br; reflexivity.
Qed.

(** X16: called on its own, the recommendation printer only works on a
    result mapping whose [pipelines] entry is a dict or is absent: with any
    other value there, the lookup of [llamaindex] raises after the header
    and no recommendation is printed; without the entry nothing is raised
    and the note about [llamaindex] is left out. *)
Theorem recommendations_need_a_pipelines_dict results :
  (forall v, dict_get results (lit "pipelines") = Some v ->
     (forall d, v <> VDict d) ->
     exists e,
       print_recommendations results = ([Header (lit "建议")], Raise e)
       /\ exn_class e = OtherException)
  /\ (dict_get results (lit "pipelines") = None ->
      exists tr,
        print_recommendations results = (tr, Ok tt)
        /\ ~ In (Success llamaindex_note) tr).
Proof.
  split.
  - intros v Hv Hnot. unfold print_recommendations, print_header.
    rewrite (bind_ok _ _ [Header _] tt) by reflexivity. cbv beta.
    unfold llamaindex_available. rewrite Hv.
    destruct v as [b|s|l|d]; try (eexists; split; reflexivity).
    destruct (Hnot d eq_refl).
  - intros Hnone. unfold print_recommendations, print_header.
    rewrite (bind_ok _ _ [Header _] tt) by reflexivity. cbv beta.
    unfold llamaindex_available. rewrite Hnone, bind_ret, bind_ret.
    set (recs := _ ++ _ ++ _). clearbody recs.
    destruct recs as [|r recs].
    + eexists. split; [reflexivity|].
      intros [H|[H|[]]]; [discriminate|].
      injection H as H. vm_compute in H. discriminate H.
    + destruct (print_numbered_trace 1 (r :: recs)) as (texts & -> & _).
      eexists. split; [reflexivity|].
      intros [H|H]; [discriminate|].
      cbn [app] in H. apply in_map_iff in H as (t & H & _). discriminate.
Qed.

Example recommendations_on_a_list :
  print_recommendations [(lit "pipelines", VList [lit "llamaindex"])]
  = ([Header (lit "建议")], Raise (attribute_error "list")).
Proof. vm_compute. reflexivity. Qed.

(** ** Further edge cases of the checks *)


(** X18: RAG_PROVIDER has a default, so the environment check marks it not
    set in one case only: when the variable is set to the empty string. *)
Theorem rag_provider_not_set_only_when_empty (environ : gmap pystr pystr) :
  In (Warning (lit "RAG_PROVIDER" ++ lit ": 未设置"))
     (fst (check_environment environ))
  <-> environ !! lit "RAG_PROVIDER" = @Some pystr [].
Proof.
  split.
  - rewrite check_environment_trace. cbn [fst].
    intros [H|H]; [discriminate|].
    apply in_flat_map in H as ([var dflt] & Hin & Hev).
    unfold check_env_var, getenv in Hev.
    assert (Hother : var <> lit "RAG_PROVIDER" -> False).
    { intros Hne.
      destruct (match environ !! var with Some v => Some v | None => dflt end)
        as [[|c s]|]; [| destruct (contains _ _ && _) |];
        destruct Hev as [Hev|[]]; try discriminate;
        injection Hev as Hev; apply app_inv_tail in Hev; congruence. }
    repeat destruct Hin as [[= <- <-]|Hin]; try destruct Hin;
      try (exfalso; apply Hother; intros Heq; vm_compute in Heq;
           discriminate Heq).
    destruct (environ !! lit "RAG_PROVIDER") as [[|c s]|]; [reflexivity| |].
    + destruct (contains _ _ && _); destruct Hev as [Hev|[]]; discriminate.
    + destruct Hev as [Hev|[]]. discriminate.
  - intros Hset.
    apply (check_environment_reports environ
             (lit "RAG_PROVIDER", Some (lit "raganything")));
      [left; reflexivity|].
    unfold check_env_var, getenv. rewrite Hset. reflexivity.
Qed.
